(** * Review-generation pipeline of the AI GitHub PR reviewer

    A shallow embedding of [lib/ollama-llm.js] (class [OllamaLLM]) and of
    the error classifier (class [ErrorHandler]), followed by the properties
    of the prompt builder, the availability probe, the two-tier review
    generator and the classifier.

    JavaScript strings are sequences of UTF-16 code units, and [.length],
    [.substring], [.includes], [.split], [.replace] and [.trim] all work on
    code units; strings are therefore modelled as [list N].  Calls to
    [axios] and to the promisified [child_process.exec] are modelled by a
    small monad that threads a log of the external calls made and carries
    JavaScript exceptions. *)

From Stdlib Require Import String Ascii DecimalString.
From Stdlib Require Import NArith ZArith Bool Lia List.
Import ListNotations.

Set Implicit Arguments.
Set Warnings "-abstract-large-number".

(* ===================================================================== *)
(** ** JavaScript strings as UTF-16 code units *)
(* ===================================================================== *)

Module JsString.

Definition jsstring : Type := list N.

(** An ASCII literal of the source, one code unit per character. *)
Definition js (s : string) : jsstring :=
  map N_of_ascii (list_ascii_of_string s).

(** UTF-16 encoding of one code point (used for the emoji of the prompt
    template, which lie outside ASCII). *)
Definition utf16 (cp : N) : jsstring :=
  if (cp <? 0x10000)%N then [cp]
  else let v := (cp - 0x10000)%N in
       [(0xD800 + N.shiftr v 10)%N; (0xDC00 + N.land v 0x3FF)%N].

Definition newline : N := 10%N.
Definition dquote : N := 34%N.
Definition dollar : N := 36%N.
Definition colon : N := 58%N.
Definition backslash : N := 92%N.
Definition backtick : N := 96%N.

(** [Array.prototype.join] for an array of strings. *)
Fixpoint join (sep : jsstring) (parts : list jsstring) : jsstring :=
  match parts with
  | [] => []
  | [p] => p
  | p :: rest => p ++ sep ++ join sep rest
  end.

(** The lines of a multi-line template literal. *)
Definition lines (ls : list jsstring) : jsstring := join [newline] ls.

(** A string is truthy when it is not empty. *)
Definition truthy (s : jsstring) : bool :=
  match s with [] => false | _ :: _ => true end.

(** [s.substring(a, b)]: both indices are clamped to the length and
    swapped when out of order. *)
Definition substring (s : jsstring) (a b : nat) : jsstring :=
  let a' := Nat.min a (length s) in
  let b' := Nat.min b (length s) in
  firstn (Nat.max a' b' - Nat.min a' b') (skipn (Nat.min a' b') s).

Fixpoint startsWith (s sub : jsstring) {struct sub} : bool :=
  match sub, s with
  | [], _ => true
  | _ :: _, [] => false
  | c :: sub', d :: s' => (c =? d)%N && startsWith s' sub'
  end.

(** [s.includes(sub)]: [sub] occurs in [s] as a contiguous run. *)
Fixpoint includes (s sub : jsstring) : bool :=
  startsWith s sub ||
  match s with
  | [] => false
  | _ :: s' => includes s' sub
  end.

(** [s.split(sep)] for a separator of one code unit. *)
Fixpoint split (sep : N) (s : jsstring) : list jsstring :=
  match s with
  | [] => [[]]
  | c :: s' =>
      if (c =? sep)%N then [] :: split sep s'
      else match split sep s' with
           | [] => [[c]]
           | p :: ps => (c :: p) :: ps
           end
  end.

(** [s.replace(/c/g, rep)] for a pattern that is one literal code unit
    and a replacement without [$]-patterns. *)
Definition replaceAll (pat : N) (rep : jsstring) (s : jsstring) : jsstring :=
  flat_map (fun c => if (c =? pat)%N then rep else [c]) s.

(** ECMAScript WhiteSpace and LineTerminator code units, the ones
    [String.prototype.trim] strips. *)
Definition isWhiteSpace (c : N) : bool :=
  ((9 <=? c) && (c <=? 13) || (c =? 32) || (c =? 160) || (c =? 0x1680)
   || (0x2000 <=? c) && (c <=? 0x200A) || (c =? 0x2028) || (c =? 0x2029)
   || (c =? 0x202F) || (c =? 0x205F) || (c =? 0x3000) || (c =? 0xFEFF))%N.

Fixpoint trimStart (s : jsstring) : jsstring :=
  match s with
  | [] => []
  | c :: s' => if isWhiteSpace c then trimStart s' else s
  end.

Definition trimEnd (s : jsstring) : jsstring := rev (trimStart (rev s)).

Definition trim (s : jsstring) : jsstring := trimEnd (trimStart s).

(** Template interpolation of an integral number: its decimal digits. *)
Definition ofNumber (z : Z) : jsstring :=
  js (NilZero.string_of_int (Z.to_int z)).

(** The specification of [includes]: an occurrence is a decomposition. *)
Definition occurs (sub s : jsstring) : Prop :=
  exists pre post, s = pre ++ sub ++ post.

End JsString.
Import JsString.

(* ===================================================================== *)
(** ** The prompt builder: [OllamaLLM.buildReviewPrompt] *)
(* ===================================================================== *)

(** The pull-request context object; a property that is absent (or
    [undefined]) is [None] and takes the destructuring default ['']. *)
Record PRContext : Type := mkPRContext {
  title : option jsstring;
  description : option jsstring;
  author : option jsstring
}.

Definition orDefault (d : jsstring) (o : option jsstring) : jsstring :=
  match o with Some s => s | None => d end.

Definition truncationBound : nat := 8000.

Definition truncatedMarker : jsstring := js "(truncated)".

(** The expression interpolated between the code fences:
    [diffText.length > 8000 ? diffText.substring(0, 8000) + '\n... (truncated)' : diffText]. *)
Definition embeddedDiff (diffText : jsstring) : jsstring :=
  if truncationBound <? length diffText
  then substring diffText 0 truncationBound ++ (newline :: js "... (truncated)")
  else diffText.

(** The lines of the template literal before the fenced diff. *)
Definition templateHeader (title author description : jsstring) : list jsstring :=
  [ js "You are a senior software engineer conducting a code review. Analyze this GitHub Pull Request and provide a comprehensive review.";
    js "";
    js "**Pull Request Context:**";
    js "- Title: " ++ title;
    js "- Author: " ++ author;
    js "- Description: " ++ description;
    js "";
    js "**Code Changes:**";
    js "```diff" ].

(** The lines of the template literal after the fenced diff. *)
Definition templateFooter : list jsstring :=
  [ js "```";
    js "";
    js "**Review Guidelines:**";
    js "1. Identify potential bugs, security issues, or performance problems";
    js "2. Check for code quality and best practices";
    js "3. Look for proper error handling and edge cases";
    js "4. Evaluate code readability and maintainability";
    js "5. Suggest improvements or optimizations";
    js "";
    js "**Please provide your review in the following format:**";
    js "";
    js "## " ++ utf16 0x1F50D ++ js " Code Review Summary";
    js "";
    js "### " ++ utf16 0x2705 ++ js " Positive Aspects";
    js "- [List what's done well]";
    js "";
    js "### " ++ utf16 0x26A0 ++ utf16 0xFE0F ++ js " Issues Found";
    js "- [List any problems, bugs, or concerns]";
    js "";
    js "### " ++ utf16 0x1F4A1 ++ js " Suggestions";
    js "- [List improvements and recommendations]";
    js "";
    js "### " ++ utf16 0x1F3AF ++ js " Overall Assessment";
    js "[Brief overall evaluation and recommendation]";
    js "";
    js "Keep your review constructive, specific, and actionable. Focus on the most important issues first." ].

Definition buildReviewPrompt (diffText : jsstring) (prContext : PRContext) : jsstring :=
  let title := orDefault [] (title prContext) in
  let description := orDefault [] (description prContext) in
  let author := orDefault [] (author prContext) in
  lines (templateHeader title author description
           ++ embeddedDiff diffText :: templateFooter).

(** The text of the prompt before and after the interpolated diff. *)
Definition promptBefore (prContext : PRContext) : jsstring :=
  lines (templateHeader (orDefault [] (title prContext))
           (orDefault [] (author prContext))
           (orDefault [] (description prContext))) ++ [newline].

Definition promptAfter : jsstring := newline :: lines templateFooter.

(** Code units of the template that do not come from an interpolation. *)
Definition templateOverhead : nat := 933.

(* ===================================================================== *)
(** ** Exceptions and external calls *)
(* ===================================================================== *)

(** The body of an upstream error response, [error.response.data]; the
    GitHub API answers with a JSON object whose [message] is a string. *)
Record ResponseData : Type := mkResponseData {
  data_message : option jsstring
}.

(** [error.response]: [status] is absent or a number; [data] is [None]
    when the property is [undefined] or [null]. *)
Record ErrorResponse : Type := mkErrorResponse {
  status : option Z;
  data : option ResponseData
}.

(** A thrown value, with the properties the program reads from it. *)
Record JsError : Type := mkJsError {
  message : option jsstring;
  code : option jsstring;
  address : option jsstring;
  port : option Z;
  response : option ErrorResponse
}.

(** The engine's error for reading property [prop] of [undefined]. *)
Definition TypeError (prop : string) : JsError :=
  {| message := Some (js "Cannot read properties of undefined (reading '"
                        ++ js prop ++ js "')");
     code := None; address := None; port := None; response := None |}.

(** The engine's error for calling a property that is not a function. *)
Definition NotAFunction (callee : string) : JsError :=
  {| message := Some (js callee ++ js " is not a function");
     code := None; address := None; port := None; response := None |}.

(** How the evaluation of a JavaScript expression or call ends. *)
Inductive Outcome (A : Type) : Type :=
| Returned (a : A)
| Threw (e : JsError).
Arguments Threw {A} e.

(** [GET <base>/api/tags] answers [{ models: [{ name }, ...] }]. *)
Record ModelEntry : Type := mkModelEntry { name : jsstring }.
Record TagsData : Type := mkTagsData { models : option (list ModelEntry) }.

(** [POST <base>/api/generate] answers [{ response }].  The [response]
    property is a string in the documented answer.  Any other value it can
    hold (a number, a boolean, [null], an object, an array) is kept as
    [OtherValue] with its truthiness: such a value has no [trim] method.
    An absent property is [None]. *)
Inductive ResponseValue : Type :=
| TextValue (text : jsstring)
| OtherValue (isTruthy : bool).

Record GenerateData : Type := mkGenerateData {
  response_field : option ResponseValue
}.

(** Sampling options, as decimal fractions (numerator, denominator). *)
Record GenerateOptions : Type := mkGenerateOptions {
  temperature : Z * Z;
  top_p : Z * Z;
  max_tokens : Z
}.

Record GenerateRequest : Type := mkGenerateRequest {
  req_model : jsstring;
  req_prompt : jsstring;
  req_stream : bool;
  req_options : GenerateOptions
}.

Record ExecResult : Type := mkExecResult { stdout : jsstring; stderr : jsstring }.

(** The outside world: what each external call answers.  The payload of
    [axios_get] and [axios_post] is [response.data]: [None] when it is
    [undefined] or [null], and otherwise the object read through its
    properties (a value without the property, such as the empty string
    axios gives for a response without body, has the property [None]).
    A rejected promise is [Threw]. *)
Record World : Type := mkWorld {
  world_get : jsstring -> Outcome (option TagsData);
  world_post : jsstring -> GenerateRequest -> Outcome (option GenerateData);
  world_exec : jsstring -> Z -> Outcome ExecResult
}.

(** The external calls a run makes, in order. *)
Inductive Event : Type :=
| AxiosGet (url : jsstring)
| AxiosPost (url : jsstring) (body : GenerateRequest)
| ExecAsync (command : jsstring) (maxBuffer : Z).

(** Computations that call the world, log the calls and may throw. *)
Definition IO (A : Type) : Type := World -> list Event -> Outcome A * list Event.

Definition ret {A} (a : A) : IO A := fun _ log => (Returned a, log).

Definition throw {A} (e : JsError) : IO A := fun _ log => (Threw e, log).

Definition bind {A B} (c : IO A) (k : A -> IO B) : IO B :=
  fun w log =>
    match c w log with
    | (Returned a, log') => k a w log'
    | (Threw e, log') => (Threw e, log')
    end.

(** [try { body } catch (error) { handler }]. *)
Definition tryCatch {A} (body : IO A) (handler : JsError -> IO A) : IO A :=
  fun w log =>
    match body w log with
    | (Returned a, log') => (Returned a, log')
    | (Threw e, log') => handler e w log'
    end.

Definition axios_get (url : jsstring) : IO (option TagsData) :=
  fun w log => (world_get w url, log ++ [AxiosGet url]).

Definition axios_post (url : jsstring) (body : GenerateRequest) : IO (option GenerateData) :=
  fun w log => (world_post w url body, log ++ [AxiosPost url body]).

Definition execAsync (command : jsstring) (maxBuffer : Z) : IO ExecResult :=
  fun w log => (world_exec w command maxBuffer, log ++ [ExecAsync command maxBuffer]).

Declare Scope io_scope.
Delimit Scope io_scope with io.
Notation "x <- c ;; k" := (bind c (fun x => k))
  (at level 61, c at next level, right associativity) : io_scope.
Open Scope io_scope.

(** A run from an empty log. *)
Definition run {A} (c : IO A) (w : World) : Outcome A * list Event := c w [].

(* ===================================================================== *)
(** ** [class OllamaLLM] *)
(* ===================================================================== *)

(** The instance fields set by the constructor. *)
Record OllamaLLM : Type := mkOllamaLLM {
  baseURL : jsstring;
  model : jsstring
}.

(** The object [checkOllamaStatus] resolves to; properties the returned
    literal does not have are [None]. *)
Record ModelStatus : Type := mkModelStatus {
  running : bool;
  modelAvailable : bool;
  availableModels : option (list jsstring);
  status_error : option jsstring
}.

(** The object both generation paths resolve to. *)
Record ReviewResult : Type := mkReviewResult {
  success : bool;
  review : option jsstring;
  review_model : option jsstring;
  method : option jsstring;
  error : option jsstring
}.

(** [this.model.split(':')[0]]. *)
Definition baseName (modelName : jsstring) : jsstring :=
  hd [] (split colon modelName).

Definition checkOllamaStatus (this : OllamaLLM) : IO ModelStatus :=
  tryCatch
    (response_data <- axios_get (baseURL this ++ js "/api/tags") ;;
     match response_data with
     | None => throw (TypeError "models")
     | Some d =>
         let models := match models d with Some l => l | None => [] end in
         let modelExists :=
           existsb (fun m => includes (name m) (baseName (model this))) models in
         ret {| running := true;
                modelAvailable := modelExists;
                availableModels := Some (map name models);
                status_error := None |}
     end)
    (fun error =>
       ret {| running := false;
              modelAvailable := false;
              availableModels := None;
              status_error := message error |}).

(** [prompt.replace(/"/g, '\\"').replace(/`/g, '\\`')]. *)
Definition escapePrompt (prompt : jsstring) : jsstring :=
  replaceAll backtick [backslash; backtick]
    (replaceAll dquote [backslash; dquote] prompt).

(** [`ollama run ${this.model} "${escapedPrompt}"`]. *)
Definition cliCommand (this : OllamaLLM) (escapedPrompt : jsstring) : jsstring :=
  js "ollama run " ++ model this ++ js " " ++ [dquote] ++ escapedPrompt ++ [dquote].

Definition maxBuffer : Z := 1024 * 1024 * 10.

Definition generateReviewCLI (this : OllamaLLM) (diffText : jsstring)
    (prContext : PRContext) : IO ReviewResult :=
  tryCatch
    (let prompt := buildReviewPrompt diffText prContext in
     let escapedPrompt := escapePrompt prompt in
     let command := cliCommand this escapedPrompt in
     out <- execAsync command maxBuffer ;;
     if truthy (stderr out) && negb (truthy (stdout out))
     then ret {| success := false; review := None; review_model := None;
                 method := None; error := Some (stderr out) |}
     else ret {| success := true;
                 review := Some (trim (stdout out));
                 review_model := Some (model this);
                 method := Some (js "CLI");
                 error := None |})
    (fun error =>
       ret {| success := false; review := None; review_model := None;
              method := None; error := message error |}).

Definition generateOptions : GenerateOptions :=
  {| temperature := (3, 10)%Z; top_p := (9, 10)%Z; max_tokens := 1000 |}.

Definition truthyValue (v : ResponseValue) : bool :=
  match v with
  | TextValue text => truthy text
  | OtherValue isTruthy => isTruthy
  end.

(** The value of [response.data && response.data.response] when it is
    truthy. *)
Definition generatedValue (response_data : option GenerateData) : option ResponseValue :=
  match response_data with
  | Some d =>
      match response_field d with
      | Some v => if truthyValue v then Some v else None
      | None => None
      end
  | None => None
  end.

(** The body of the [try] of [generateReview], the structured path.
    [response.data.response.trim()] throws when the truthy value is not a
    string. *)
Definition structuredPath (this : OllamaLLM) (diffText : jsstring)
    (prContext : PRContext) : IO ReviewResult :=
  let prompt := buildReviewPrompt diffText prContext in
  response_data <-
    axios_post (baseURL this ++ js "/api/generate")
      {| req_model := model this; req_prompt := prompt;
         req_stream := false; req_options := generateOptions |} ;;
  match generatedValue response_data with
  | Some (TextValue text) =>
      ret {| success := true;
             review := Some (trim text);
             review_model := Some (model this);
             method := None;
             error := None |}
  | Some (OtherValue _) =>
      throw (NotAFunction "response.data.response.trim")
  | None =>
      ret {| success := false; review := None; review_model := None;
             method := None; error := Some (js "No response from Ollama") |}
  end.

Definition generateReview (this : OllamaLLM) (diffText : jsstring)
    (prContext : PRContext) : IO ReviewResult :=
  tryCatch
    (structuredPath this diffText prContext)
    (fun _ => generateReviewCLI this diffText prContext).

(** The caller in [server.js]: [method: reviewResult.method || 'API']. *)
Definition reportedMethod (reviewResult : ReviewResult) : jsstring :=
  match method reviewResult with
  | Some m => if truthy m then m else js "API"
  | None => js "API"
  end.

(* ===================================================================== *)
(** ** [class ErrorHandler] *)
(* ===================================================================== *)

Module ErrorHandler.

(** The [type] strings of a classified error. *)
Inductive ErrorType : Type :=
| GITHUB_AUTH
| OLLAMA_DOWN
| MODEL_MISSING
| RATE_LIMIT
| INVALID_REPO
| INVALID_PR
| NETWORK_ERROR
| UNKNOWN_ERROR.

Record ErrorInfo : Type := mkErrorInfo {
  type : ErrorType;
  info_message : jsstring;
  suggestion : jsstring
}.

(** [suggestions[type] || '...']; [UNKNOWN_ERROR] is not a key of the
    table. *)
Definition getSuggestion (type : ErrorType) : jsstring :=
  match type with
  | GITHUB_AUTH => js "Visit http://localhost:5000/auth/login to re-authenticate"
  | OLLAMA_DOWN => js "Run: ollama serve"
  | MODEL_MISSING => js "Run: ollama pull gemma:2b (or your preferred model)"
  | RATE_LIMIT => js "Wait for the rate limit to reset, or use a personal access token"
  | INVALID_REPO => js "Check the repository name and your access permissions"
  | INVALID_PR => js "Verify the pull request number exists"
  | NETWORK_ERROR => js "Check your internet connection and try again"
  | UNKNOWN_ERROR => js "Please check the documentation for troubleshooting"
  end.

(** [createError(type, message, suggestion = null)]. *)
Definition createError (type : ErrorType) (message : jsstring)
    (suggestion : option jsstring) : ErrorInfo :=
  {| type := type;
     info_message := message;
     suggestion := match suggestion with
                   | Some s => if truthy s then s else getSuggestion type
                   | None => getSuggestion type
                   end |}.

(** [x === 'literal'] for a property that is absent or a string. *)
Definition strictEq (x : option jsstring) (literal : string) : bool :=
  match x with
  | Some s => if list_eq_dec N.eq_dec s (js literal) then true else false
  | None => false
  end.

(** [x || fallback] for a property that is absent or a string. *)
Definition orElse (x : option jsstring) (fallback : jsstring) : jsstring :=
  match x with
  | Some s => if truthy s then s else fallback
  | None => fallback
  end.

(** The value of [error.response && error.response.status] when truthy,
    with [error.response.data]. *)
Definition upstreamStatus (error : JsError) : option (Z * option ResponseData) :=
  match response error with
  | Some r =>
      match status r with
      | Some st => if (st =? 0)%Z then None else Some (st, data r)
      | None => None
      end
  | None => None
  end.

(** The [switch (status)] of [handle]; reading [data.message] throws
    when [data] is [undefined]. *)
Definition handleStatus (status : Z) (data : option ResponseData) : Outcome ErrorInfo :=
  if (status =? 401)%Z then
    Returned (createError GITHUB_AUTH
                (js "Invalid or expired GitHub token. Please re-authenticate.") None)
  else if (status =? 403)%Z then
    match data with
    | None => Threw (TypeError "message")
    | Some d =>
        let denied := createError INVALID_REPO
                        (js "Access denied or repository not found.") None in
        match data_message d with
        | Some m =>
            if truthy m && includes m (js "rate limit")
            then Returned (createError RATE_LIMIT (m ++ js ". Try again later.") None)
            else Returned denied
        | None => Returned denied
        end
    end
  else if (status =? 404)%Z then
    Returned (createError INVALID_PR (js "Pull request or repository not found.") None)
  else if (status =? 422)%Z then
    match data with
    | None => Threw (TypeError "message")
    | Some d =>
        Returned (createError INVALID_REPO
                    (js "GitHub API error: "
                       ++ orElse (data_message d) (js "Invalid request")) None)
    end
  else
    match data with
    | None => Threw (TypeError "message")
    | Some d =>
        Returned (createError NETWORK_ERROR
                    (js "GitHub API error (" ++ ofNumber status ++ js "): "
                       ++ orElse (data_message d) (js "Unknown error")) None)
    end.

(** The rules of [handle] after the upstream-status block. *)
Definition handleLocal (error : JsError) : Outcome ErrorInfo :=
  let refused :=
    strictEq (code error) "ECONNREFUSED" && strictEq (address error) "127.0.0.1" in
  if refused && match port error with Some p => (p =? 11434)%Z | None => false end then
    Returned (createError OLLAMA_DOWN
                (js "Ollama is not running. Start with: ollama serve") None)
  else if refused && match port error with Some p => (p =? 5000)%Z | None => false end then
    Returned (createError NETWORK_ERROR
                (js "Server is not running. Start with: npm start") None)
  else if strictEq (code error) "ENOTFOUND" || strictEq (code error) "ECONNRESET" then
    Returned (createError NETWORK_ERROR
                (js "Network connection failed. Check your internet connection.") None)
  else if strictEq (code error) "ECONNABORTED" then
    Returned (createError NETWORK_ERROR (js "Request timed out. Please try again.") None)
  else
    match message error with
    | None => Threw (TypeError "includes")
    | Some m =>
        if includes m (js "timeout") then
          Returned (createError NETWORK_ERROR
                      (js "Request timed out. Please try again.") None)
        else
          Returned {| type := UNKNOWN_ERROR;
                      info_message := orElse (message error)
                                        (js "An unexpected error occurred");
                      suggestion := js "Please check the logs for more details" |}
    end.

(** [handle(error, context)]; the [console.error] line only logs. *)
Definition handle (error : JsError) : Outcome ErrorInfo :=
  match upstreamStatus error with
  | Some (status, data) => handleStatus status data
  | None => handleLocal error
  end.

End ErrorHandler.

(* ===================================================================== *)
(** ** Reference descriptions and concrete worlds *)
(* ===================================================================== *)

(** Escaping as the prose describes it, one code unit at a time: a double
    quote or a backtick gets a backslash in front, anything else is kept. *)
Definition escapeUnit (c : N) : jsstring :=
  if (c =? dquote)%N || (c =? backtick)%N then [backslash; c] else [c].

Definition failure (reason : option jsstring) : ReviewResult :=
  {| success := false; review := None; review_model := None;
     method := None; error := reason |}.

Definition lgtm : ExecResult := {| stdout := js "LGTM"; stderr := [] |}.

(** The result the subprocess path resolves to. *)
Definition cliResult (this : OllamaLLM) (diffText : jsstring)
    (prContext : PRContext) (w : World) : ReviewResult :=
  let command :=
    cliCommand this (escapePrompt (buildReviewPrompt diffText prContext)) in
  match world_exec w command maxBuffer with
  | Returned out =>
      if truthy (stderr out) && negb (truthy (stdout out))
      then failure (Some (stderr out))
      else {| success := true; review := Some (trim (stdout out));
              review_model := Some (model this);
              method := Some (js "CLI"); error := None |}
  | Threw e => failure (message e)
  end.

(** How the structured path ends: with a result, or by throwing. *)
Definition structuredOutcome (this : OllamaLLM) (diffText : jsstring)
    (prContext : PRContext) (w : World) : Outcome ReviewResult :=
  let request :=
    {| req_model := model this;
       req_prompt := buildReviewPrompt diffText prContext;
       req_stream := false; req_options := generateOptions |} in
  match world_post w (baseURL this ++ js "/api/generate") request with
  | Returned response_data =>
      match generatedValue response_data with
      | Some (TextValue text) =>
          Returned {| success := true; review := Some (trim text);
                      review_model := Some (model this);
                      method := None; error := None |}
      | Some (OtherValue _) => Threw (NotAFunction "response.data.response.trim")
      | None => Returned (failure (Some (js "No response from Ollama")))
      end
  | Threw e => Threw e
  end.

(** The error kinds as the specification names them (a closed set of
    nine), and the kind its prose assigns to an upstream status: 401,
    403 with rate-limit wording, 403 otherwise and 404, 422, anything
    else.  These two definitions follow the specification's words, not the
    program; they serve to compare the two. *)
Inductive SpecKind : Type :=
| AuthFailure
| RateLimit
| ResourceNotFound
| InvalidRequest
| GenericUpstreamError
| InferenceServiceDown
| OrchestrationServerDown
| NetworkError
| UnknownError.

Definition rateLimitWording (d : ResponseData) : bool :=
  match data_message d with
  | Some m => includes m (js "rate limit")
  | None => false
  end.

Definition specKindOfStatus (status : Z) (d : ResponseData) : SpecKind :=
  if (status =? 401)%Z then AuthFailure
  else if (status =? 403)%Z then
    if rateLimitWording d then RateLimit else ResourceNotFound
  else if (status =? 404)%Z then ResourceNotFound
  else if (status =? 422)%Z then InvalidRequest
  else GenericUpstreamError.

(** An upstream failure with the given status and body message. *)
Definition upstreamError (statusCode : Z) (msg : option jsstring) : JsError :=
  {| message := Some (js "Request failed with status code " ++ ofNumber statusCode);
     code := Some (js "ERR_BAD_REQUEST");
     address := None;
     port := None;
     response := Some {| status := Some statusCode;
                         data := Some {| data_message := msg |} |} |}.

(** A thrown object without [response], [code] or [message]. *)
Definition bareError : JsError :=
  {| message := None; code := None; address := None; port := None; response := None |}.

(** Worlds for concrete runs. *)
Definition connectionRefused : JsError :=
  {| message := Some (js "connect ECONNREFUSED 127.0.0.1:11434");
     code := Some (js "ECONNREFUSED");
     address := Some (js "127.0.0.1");
     port := Some 11434%Z;
     response := None |}.

Definition requestFailed (statusCode : Z) : JsError :=
  {| message := Some (js "Request failed with status code " ++ ofNumber statusCode);
     code := Some (js "ERR_BAD_RESPONSE");
     address := None;
     port := None;
     response := Some {| status := Some statusCode; data := Some {| data_message := None |} |} |}.

Definition commandNotFound : JsError :=
  {| message := Some (js "Command failed: ollama run");
     code := None; address := None; port := None; response := None |}.

Definition localOllama : OllamaLLM :=
  {| baseURL := js "http://localhost:11434"; model := js "gemma:2b" |}.

(** A world in which the catalog lists [names], generation answers
    [generated] and the subprocess ends as [executed]. *)
Definition worldOf (names : list string) (generated : Outcome (option GenerateData))
    (executed : Outcome ExecResult) : World :=
  {| world_get := fun _ =>
       Returned (Some {| models := Some (map (fun n => {| name := js n |}) names) |});
     world_post := fun _ _ => generated;
     world_exec := fun _ _ => executed |}.

Definition serviceDown : World :=
  {| world_get := fun _ => Threw connectionRefused;
     world_post := fun _ _ => Threw connectionRefused;
     world_exec := fun _ _ => Threw commandNotFound |}.

Definition emptyOutput : World :=
  worldOf [] (Returned (Some {| response_field := Some (TextValue []) |})) (Returned lgtm).

Definition apiAnswers : World :=
  worldOf [] (Returned (Some {| response_field := Some (TextValue (js " Looks good. ")) |}))
    (Returned lgtm).

(** The generation endpoint answers [{ response: 42 }]. *)
Definition numericOutput : World :=
  worldOf [] (Returned (Some {| response_field := Some (OtherValue true) |}))
    (Returned lgtm).

(** The catalog endpoint answers without body ([response.data] is [''])
    or with an object that has no [models]. *)
Definition emptyCatalogBody : World :=
  {| world_get := fun _ => Returned (Some {| models := None |});
     world_post := fun _ _ => Threw connectionRefused;
     world_exec := fun _ _ => Threw commandNotFound |}.

Definition http500 : World :=
  worldOf [] (Threw (requestFailed 500)) (Returned lgtm).

Definition silentSubprocess : World :=
  worldOf [] (Threw (requestFailed 500)) (Returned {| stdout := []; stderr := [] |}).

Definition noContext : PRContext := mkPRContext None None None.

Definition isExec (ev : Event) : bool :=
  match ev with ExecAsync _ _ => true | _ => false end.

(* ===================================================================== *)
(** ** The presentation adapters of [class ErrorHandler] *)
(* ===================================================================== *)

(** [formatForCLI(error)]: the message line and, when the suggestion is
    truthy, a suggestion line. *)
Definition formatForCLI (error : JsError) : Outcome jsstring :=
  match ErrorHandler.handle error with
  | Returned errorInfo =>
      let output :=
        utf16 0x274C ++ js " " ++ ErrorHandler.info_message errorInfo in
      if truthy (ErrorHandler.suggestion errorInfo)
      then Returned (output ++ newline :: utf16 0x1F4A1 ++ js " "
                       ++ ErrorHandler.suggestion errorInfo)
      else Returned output
  | Threw e => Threw e
  end.

(** The object [formatForAPI] returns. *)
Record ApiError : Type := mkApiError {
  api_error : jsstring;
  api_type : ErrorHandler.ErrorType;
  api_suggestion : jsstring
}.

(** [formatForAPI(error)]. *)
Definition formatForAPI (error : JsError) : Outcome ApiError :=
  match ErrorHandler.handle error with
  | Returned errorInfo =>
      Returned {| api_error := ErrorHandler.info_message errorInfo;
                  api_type := ErrorHandler.type errorInfo;
                  api_suggestion := ErrorHandler.suggestion errorInfo |}
  | Threw e => Threw e
  end.

(* ===================================================================== *)
(** ** [OllamaLLM.detectLanguage] and [OllamaLLM.analyzeCodePatterns] *)
(* ===================================================================== *)

Definition dot : N := 46%N.
Definition slash : N := 47%N.

(** What [languageMap[ext] || 'Unknown'] evaluates to: a string, or, for a
    key the object literal inherits from [Object.prototype], that
    inherited function or object (all of them truthy). *)
Inductive LanguageValue : Type :=
| LanguageName (language : jsstring)
| InheritedProperty (key : jsstring).

Definition languageMap : list (string * string) :=
  [ ("js", "JavaScript");
    ("ts", "TypeScript");
    ("jsx", "React JSX");
    ("tsx", "React TSX");
    ("py", "Python");
    ("java", "Java");
    ("cpp", "C++");
    ("c", "C");
    ("cs", "C#");
    ("php", "PHP");
    ("rb", "Ruby");
    ("go", "Go");
    ("rs", "Rust");
    ("kt", "Kotlin");
    ("swift", "Swift") ]%string.

(** The property names of [Object.prototype]. *)
Definition objectPrototypeKeys : list string :=
  [ "constructor"; "__defineGetter__"; "__defineSetter__"; "hasOwnProperty";
    "__lookupGetter__"; "__lookupSetter__"; "isPrototypeOf";
    "propertyIsEnumerable"; "toString"; "valueOf"; "__proto__";
    "toLocaleString" ]%string.

Definition jsEqb (a b : jsstring) : bool :=
  if list_eq_dec N.eq_dec a b then true else false.

(** Property lookup [languageMap[ext]]: own properties first, then the
    prototype; [None] is [undefined]. *)
Definition languageMapGet (ext : jsstring) : option LanguageValue :=
  match find (fun kv => jsEqb ext (js (fst kv))) languageMap with
  | Some kv => Some (LanguageName (js (snd kv)))
  | None =>
      if existsb (fun k => jsEqb ext (js k)) objectPrototypeKeys
      then Some (InheritedProperty ext)
      else None
  end.

(** Lower-casing of A-Z, which is what [toLowerCase] does to a string of
    ASCII code units. *)
Definition asciiLower (c : N) : N :=
  if ((65 <=? c) && (c <=? 90))%N then (c + 32)%N else c.

Definition isAscii (s : jsstring) : Prop := Forall (fun c => (c < 128)%N) s.

(** A file of a pull request as [getPullRequestFiles] returns it; a
    property that is [undefined] is [None]. *)
Record FileChange : Type := mkFileChange {
  filename : option jsstring;
  changes : option Z;
  additions : option Z;
  deletions : option Z
}.

(** An element of [patterns]. *)
Record Pattern : Type := mkPattern {
  pattern_filename : jsstring;
  pattern_language : LanguageValue;
  pattern_changes : option Z;
  pattern_additions : option Z;
  pattern_deletions : option Z
}.

Section Engine.

(** The engine's [String.prototype.toLowerCase] (Unicode lower-casing) and
    [JSON.stringify(patterns, null, 2)] are taken as given. *)
Variable toLowerCase : jsstring -> jsstring.
Variable stringify : list Pattern -> jsstring.

(** [detectLanguage(filename)]:
    [filename.split('.').pop().toLowerCase()], then the table. *)
Definition detectLanguage (filename : jsstring) : LanguageValue :=
  let ext := toLowerCase (last (split dot filename) []) in
  match languageMapGet ext with
  | Some language => language
  | None => LanguageName (js "Unknown")
  end.

(** The callback of [files.map]; [detectLanguage(undefined)] throws on
    [filename.split]. *)
Definition toPattern (file : FileChange) : Outcome Pattern :=
  match filename file with
  | None => Threw (TypeError "split")
  | Some name =>
      Returned {| pattern_filename := name;
                  pattern_language := detectLanguage name;
                  pattern_changes := changes file;
                  pattern_additions := additions file;
                  pattern_deletions := deletions file |}
  end.

(** [files.map(...)]: the first callback that throws ends the loop. *)
Fixpoint mapFiles (files : list FileChange) : Outcome (list Pattern) :=
  match files with
  | [] => Returned []
  | file :: rest =>
      match toPattern file with
      | Threw e => Threw e
      | Returned p =>
          match mapFiles rest with
          | Threw e => Threw e
          | Returned ps => Returned (p :: ps)
          end
      end
  end.

Definition analysisHeader : jsstring :=
  lines [ js "Analyze these code changes for common patterns and potential issues:";
          js "";
          js "" ].

Definition analysisFooter : jsstring :=
  lines [ js "";
          js "";
          js "Focus on:";
          js "1. Security vulnerabilities";
          js "2. Performance issues";
          js "3. Code smells";
          js "4. Best practice violations";
          js "5. Potential bugs";
          js "";
          js "Provide a brief summary of findings." ].

(** The prompt of [analyzeCodePatterns]. *)
Definition analysisPrompt (patterns : list Pattern) : jsstring :=
  analysisHeader ++ stringify patterns ++ analysisFooter.

(** The empty object [{}] passed as context. *)
Definition emptyContext : PRContext := mkPRContext None None None.

Definition analyzeCodePatterns (this : OllamaLLM) (files : list FileChange)
    : IO ReviewResult :=
  tryCatch
    (match mapFiles files with
     | Threw e => throw e
     | Returned patterns =>
         generateReview this (analysisPrompt patterns) emptyContext
     end)
    (fun error =>
       ret {| success := false; review := None; review_model := None;
              method := None; error := message error |}).

End Engine.

(* ===================================================================== *)
(** ** The callers: the [/api/analyze-pr] route and the CLI's repository
       prompt *)
(* ===================================================================== *)

(** [req.body] of the route. *)
Record AnalyzeRequest : Type := mkAnalyzeRequest {
  body_owner : option jsstring;
  body_repo : option jsstring;
  body_prNumber : option Z
}.

(** The pull request as the GitHub API returns it ([prResponse.data]). *)
Record PullRequestUser : Type := mkPullRequestUser { login : option jsstring }.

Record PullRequestData : Type := mkPullRequestData {
  pr_title : option jsstring;
  pr_body : option jsstring;
  pr_user : option PullRequestUser;
  pr_html_url : option jsstring
}.

(** What [GitHubAPI.getPullRequestDiff] resolves to. *)
Inductive DiffResult : Type :=
| DiffOk (diff : jsstring)
| DiffFailed (error : option jsstring).

(** The JSON bodies the route sends. *)
Inductive ResponseBody : Type :=
| ErrorBody (error : option jsstring) (suggestion : option jsstring)
    (availableModels : option (list jsstring))
| AnalysisBody (title author url : option jsstring) (filesChanged : nat)
    (review model : option jsstring) (method : jsstring).

Record HttpResponse : Type := mkHttpResponse {
  http_status : Z;
  http_body : ResponseBody
}.

Definition falsyString (x : option jsstring) : bool :=
  match x with Some s => negb (truthy s) | None => true end.

Definition falsyNumber (x : option Z) : bool :=
  match x with Some z => (z =? 0)%Z | None => true end.

(** Lifting an already settled promise into a computation. *)
Definition await {A} (o : Outcome A) : IO A := fun _ log => (o, log).

(** The handler of [POST /api/analyze-pr] behind [requireAuth].  The three
    GitHub requests do not touch the inference service; their outcomes are
    the arguments [prResponse] (the [axios.get] of the pull request),
    [diffResult] and [filesResult] ([None] when [success] is false). *)
Definition analyzePr (ollamaLLM : OllamaLLM) (req : AnalyzeRequest)
    (prResponse : Outcome (option PullRequestData)) (diffResult : DiffResult)
    (filesResult : option (list FileChange)) : IO HttpResponse :=
  tryCatch
    (if falsyString (body_owner req) || falsyString (body_repo req)
        || falsyNumber (body_prNumber req)
     then ret {| http_status := 400;
                 http_body := ErrorBody
                   (Some (js "Missing required parameters: owner, repo, prNumber"))
                   None None |}
     else
       prData <- await prResponse ;;
       match diffResult with
       | DiffFailed error =>
           ret {| http_status := 500; http_body := ErrorBody error None None |}
       | DiffOk diff =>
           ollamaStatus <- checkOllamaStatus ollamaLLM ;;
           if negb (running ollamaStatus) then
             ret {| http_status := 503;
                    http_body := ErrorBody
                      (Some (js "Ollama is not running. Please start Ollama service."))
                      (Some (js "Run: ollama serve")) None |}
           else if negb (modelAvailable ollamaStatus) then
             ret {| http_status := 503;
                    http_body := ErrorBody
                      (Some (js "Model " ++ model ollamaLLM ++ js " is not available."))
                      (Some (js "Run: ollama pull " ++ model ollamaLLM))
                      (availableModels ollamaStatus) |}
           else
             match prData with
             | None => throw (TypeError "title")
             | Some pr =>
                 match pr_user pr with
                 | None => throw (TypeError "login")
                 | Some user =>
                     let prContext :=
                       {| title := pr_title pr;
                          description := Some (ErrorHandler.orElse (pr_body pr) []);
                          author := login user |} in
                     reviewResult <- generateReview ollamaLLM diff prContext ;;
                     if negb (success reviewResult) then
                       ret {| http_status := 500;
                              http_body := ErrorBody
                                (Some (js "AI analysis failed: "
                                         ++ orDefault (js "undefined") (error reviewResult)))
                                None None |}
                     else
                       ret {| http_status := 200;
                              http_body := AnalysisBody
                                (pr_title pr) (login user) (pr_html_url pr)
                                (match filesResult with
                                 | Some files => length files
                                 | None => 0
                                 end)
                                (review reviewResult) (review_model reviewResult)
                                (reportedMethod reviewResult) |}
                 end
             end
       end)
    (fun _ =>
       ret {| http_status := 500;
              http_body := ErrorBody (Some (js "Failed to analyze pull request"))
                             None None |}).

(** The [validate] callback of the repository prompt in [cli.js]: [None]
    is [true], [Some message] is the rejection. *)
Definition validateRepoInput (input : jsstring) : option jsstring :=
  if negb (includes input [slash])
  then Some (js "Please enter in format: owner/repo")
  else None.

(** [const [owner, repo] = repoInput.split('/')]. *)
Definition splitRepoInput (repoInput : jsstring) : option jsstring * option jsstring :=
  let parts := split slash repoInput in
  (nth_error parts 0, nth_error parts 1).

(** The code units [escapePrompt] puts a backslash in front of. *)
Definition isQuoteOrBacktick (c : N) : bool := (c =? dquote)%N || (c =? backtick)%N.

(** The external calls of the generator. *)
Definition isGeneration (ev : Event) : bool :=
  match ev with AxiosGet _ => false | _ => true end.

(** Concrete inputs for the runs below. *)
Definition lowerAscii (s : jsstring) : jsstring := map asciiLower s.

Definition sampleStringify (patterns : list Pattern) : jsstring :=
  flat_map (fun p => pattern_filename p ++ [newline]) patterns.

Definition samplePullRequest : PullRequestData :=
  {| pr_title := Some (js "Fix parser");
     pr_body := None;
     pr_user := Some {| login := Some (js "octocat") |};
     pr_html_url := Some (js "https://github.com/o/r/pull/7") |}.

Definition sampleRequest : AnalyzeRequest :=
  {| body_owner := Some (js "o"); body_repo := Some (js "r"); body_prNumber := Some 7%Z |}.

Definition healthy : World :=
  worldOf ["gemma:2b"%string]
    (Returned (Some {| response_field := Some (TextValue (js "LGTM")) |}))
    (Returned lgtm).

Definition refusedElsewhere : JsError :=
  {| message := Some (js "connect ECONNREFUSED ::1:11434");
     code := Some (js "ECONNREFUSED");
     address := Some (js "::1");
     port := Some 11434%Z;
     response := None |}.

(** Every way [ErrorHandler.handle] has of returning, rule by rule. *)
Module ErrorHandlerCases.
Import ErrorHandler.

Inductive Classified (error : JsError) : ErrorInfo -> Prop :=
| ClassAuth d :
    upstreamStatus error = Some (401%Z, d) ->
    Classified error
      (createError GITHUB_AUTH
         (js "Invalid or expired GitHub token. Please re-authenticate.") None)
| ClassRateLimit d m :
    upstreamStatus error = Some (403%Z, Some d) ->
    data_message d = Some m -> includes m (js "rate limit") = true ->
    Classified error (createError RATE_LIMIT (m ++ js ". Try again later.") None)
| ClassDenied d :
    upstreamStatus error = Some (403%Z, Some d) ->
    rateLimitWording d = false ->
    Classified error
      (createError INVALID_REPO (js "Access denied or repository not found.") None)
| ClassNotFound d :
    upstreamStatus error = Some (404%Z, d) ->
    Classified error
      (createError INVALID_PR (js "Pull request or repository not found.") None)
| ClassInvalid d :
    upstreamStatus error = Some (422%Z, Some d) ->
    Classified error
      (createError INVALID_REPO
         (js "GitHub API error: " ++ orElse (data_message d) (js "Invalid request")) None)
| ClassUpstream st d :
    upstreamStatus error = Some (st, Some d) ->
    st <> 401%Z -> st <> 403%Z -> st <> 404%Z -> st <> 422%Z ->
    Classified error
      (createError NETWORK_ERROR
         (js "GitHub API error (" ++ ofNumber st ++ js "): "
            ++ orElse (data_message d) (js "Unknown error")) None)
| ClassOllamaDown :
    upstreamStatus error = None ->
    code error = Some (js "ECONNREFUSED") -> address error = Some (js "127.0.0.1") ->
    port error = Some 11434%Z ->
    Classified error
      (createError OLLAMA_DOWN (js "Ollama is not running. Start with: ollama serve") None)
| ClassServerDown :
    upstreamStatus error = None ->
    code error = Some (js "ECONNREFUSED") -> address error = Some (js "127.0.0.1") ->
    port error = Some 5000%Z ->
    Classified error
      (createError NETWORK_ERROR (js "Server is not running. Start with: npm start") None)
| ClassNetwork :
    upstreamStatus error = None ->
    code error = Some (js "ENOTFOUND") \/ code error = Some (js "ECONNRESET") ->
    Classified error
      (createError NETWORK_ERROR
         (js "Network connection failed. Check your internet connection.") None)
| ClassAborted :
    upstreamStatus error = None ->
    code error = Some (js "ECONNABORTED") ->
    Classified error
      (createError NETWORK_ERROR (js "Request timed out. Please try again.") None)
| ClassTimeout m :
    upstreamStatus error = None ->
    message error = Some m -> includes m (js "timeout") = true ->
    Classified error
      (createError NETWORK_ERROR (js "Request timed out. Please try again.") None)
| ClassUnknown m :
    upstreamStatus error = None ->
    message error = Some m -> includes m (js "timeout") = false ->
    ~ (code error = Some (js "ECONNREFUSED") /\ address error = Some (js "127.0.0.1")
       /\ port error = Some 11434%Z) ->
    Classified error
      {| type := UNKNOWN_ERROR;
         info_message := orElse (Some m) (js "An unexpected error occurred");
         suggestion := js "Please check the logs for more details" |}.

End ErrorHandlerCases.

(* ===================================================================== *)
(** ** Facts about strings *)
(* ===================================================================== *)

Section StringFacts.

Lemma startsWith_app (sub post : jsstring) : startsWith (sub ++ post) sub = true.
Proof.
  induction sub as [|c sub IH]; simpl; [reflexivity|].
  now rewrite N.eqb_refl, IH.
Qed.

Lemma startsWith_prefix (s sub : jsstring) :
  startsWith s sub = true -> exists post, s = sub ++ post.
Proof.
  revert s; induction sub as [|c sub IH]; intros s H.
  - now exists s.
  - destruct s as [|d s]; simpl in H; [discriminate|].
    apply andb_true_iff in H as [Hc Hs].
    apply N.eqb_eq in Hc; subst d.
    destruct (IH _ Hs) as [post ->]. now exists post.
Qed.

(** [includes] decides the occurrence of a contiguous run. *)
Lemma includes_occurs (s sub : jsstring) :
  includes s sub = true <-> occurs sub s.
Proof.
  split.
  - induction s as [|d s IH]; cbn [includes]; intros H.
    + rewrite orb_false_r in H.
      destruct (startsWith_prefix _ _ H) as [post E]. now exists [], post.
    + apply orb_true_iff in H as [H|H].
      * destruct (startsWith_prefix _ _ H) as [post E]. now exists [], post.
      * destruct (IH H) as (pre & post & ->). now exists (d :: pre), post.
  - intros (pre & post & ->).
    induction pre as [|d pre IH]; cbn [includes app].
    + assert (Hs : startsWith (sub ++ post) sub = true) by apply startsWith_app.
      destruct (sub ++ post); cbn [includes]; rewrite Hs; reflexivity.
    + rewrite IH. apply orb_true_r.
Qed.

(** A pattern without line breaks cannot straddle a line break. *)
Lemma startsWith_before_newline (a b m : jsstring) :
  ~ In newline m -> startsWith (a ++ newline :: b) m = startsWith a m.
Proof.
  revert m; induction a as [|x a IH]; intros [|c m] Hm; simpl; try reflexivity.
  - destruct (N.eqb_spec c newline) as [->|_]; [|reflexivity].
    exfalso; apply Hm; now left.
  - rewrite IH; [reflexivity|]. intros Hin; apply Hm; now right.
Qed.

Lemma includes_across_newline (a b m : jsstring) :
  m <> [] -> ~ In newline m ->
  includes (a ++ newline :: b) m = includes a m || includes b m.
Proof.
  intros Hne Hm. induction a as [|x a IH].
  - change ([] ++ newline :: b) with (newline :: b).
    destruct m as [|c m]; [congruence|]. simpl.
    destruct (N.eqb_spec c newline) as [->|_]; [|reflexivity].
    exfalso; apply Hm; now left.
  - change (includes ((x :: a) ++ newline :: b) m)
      with (startsWith ((x :: a) ++ newline :: b) m || includes (a ++ newline :: b) m).
    rewrite startsWith_before_newline, IH by assumption.
    simpl. now rewrite orb_assoc.
Qed.

(** ... so it occurs in a joined text exactly when it occurs in a line. *)
Lemma includes_lines (ls : list jsstring) (m : jsstring) :
  m <> [] -> ~ In newline m ->
  includes (lines ls) m = existsb (fun l => includes l m) ls.
Proof.
  intros Hne Hm. induction ls as [|p [|q rest] IH].
  - destruct m; [congruence|reflexivity].
  - simpl. now rewrite orb_false_r.
  - change (lines (p :: q :: rest)) with (p ++ newline :: lines (q :: rest)).
    rewrite includes_across_newline, IH by assumption. reflexivity.
Qed.

(** A fixed label that lacks the first unit of the pattern adds no
    occurrence in front of an interpolated value. *)
Lemma includes_after_label (label v m : jsstring) (c : N) :
  hd_error m = Some c -> ~ In c label ->
  includes (label ++ v) m = includes v m.
Proof.
  intros Hc. induction label as [|x label IH]; intros Hl; [reflexivity|].
  change (includes ((x :: label) ++ v) m)
    with (startsWith (x :: label ++ v) m || includes (label ++ v) m).
  rewrite IH by (intros Hin; apply Hl; now right).
  destruct m as [|c' m]; [discriminate|]. injection Hc as ->.
  simpl. destruct (N.eqb_spec c x) as [->|_]; [|reflexivity].
  exfalso; apply Hl; now left.
Qed.

Lemma firstn_min_length (s : jsstring) (n : nat) :
  firstn (Nat.min n (length s)) s = firstn n s.
Proof.
  destruct (Nat.le_ge_cases n (length s)) as [H|H].
  - now rewrite Nat.min_l.
  - rewrite Nat.min_r, !firstn_all2 by lia. reflexivity.
Qed.

Lemma substring_from_0 (s : jsstring) (n : nat) :
  substring s 0 n = firstn n s.
Proof.
  unfold substring. rewrite Nat.min_0_l, Nat.max_0_l, Nat.sub_0_r.
  apply firstn_min_length.
Qed.

Lemma lines_cons (p q : jsstring) (rest : list jsstring) :
  lines (p :: q :: rest) = p ++ newline :: lines (q :: rest).
Proof. reflexivity. Qed.

Lemma lines_app (xs : list jsstring) (y : jsstring) (ys : list jsstring) :
  xs <> [] -> lines (xs ++ y :: ys) = lines xs ++ newline :: lines (y :: ys).
Proof.
  induction xs as [|p [|q rest] IH]; intros Hne; [congruence|reflexivity|].
  change ((p :: q :: rest) ++ y :: ys) with (p :: q :: (rest ++ y :: ys)).
  rewrite !lines_cons.
  change (q :: rest ++ y :: ys) with ((q :: rest) ++ y :: ys).
  rewrite IH by discriminate. now rewrite <- app_assoc.
Qed.

End StringFacts.

(* ===================================================================== *)
(** ** The prompt builder *)
(* ===================================================================== *)

Section PromptBuilder.

Variable diffText : jsstring.
Variable prContext : PRContext.

Let theTitle := orDefault [] (title prContext).
Let theAuthor := orDefault [] (author prContext).
Let theDescription := orDefault [] (description prContext).

(** The prompt is the fixed text around the interpolated diff. *)
Lemma buildReviewPrompt_split :
  buildReviewPrompt diffText prContext
  = promptBefore prContext ++ embeddedDiff diffText ++ promptAfter.
Proof.
  unfold buildReviewPrompt, promptBefore, promptAfter.
  rewrite lines_app by discriminate.
  rewrite <- app_assoc. reflexivity.
Qed.

Lemma embeddedDiff_short :
  length diffText <= truncationBound -> embeddedDiff diffText = diffText.
Proof.
  intros H. unfold embeddedDiff.
  destruct (Nat.ltb_spec truncationBound (length diffText)); [lia|reflexivity].
Qed.

Lemma embeddedDiff_long :
  truncationBound < length diffText ->
  embeddedDiff diffText
  = firstn truncationBound diffText ++ newline :: js "... (truncated)".
Proof.
  intros H. unfold embeddedDiff.
  destruct (Nat.ltb_spec truncationBound (length diffText)); [|lia].
  now rewrite substring_from_0.
Qed.

Lemma promptBefore_length :
  length (promptBefore prContext)
  = 221 + length theTitle + length theAuthor + length theDescription.
Proof.
  unfold promptBefore, templateHeader.
  fold theTitle theAuthor theDescription.
  rewrite !lines_cons. unfold lines, join.
  repeat (rewrite ?length_app; cbn [length]).
  repeat match goal with |- context [length (js ?s)] =>
    let n := eval vm_compute in (length (js s)) in
    change (length (js s)) with n end.
  lia.
Qed.

Lemma promptAfter_length : length promptAfter = 712.
Proof. vm_compute. reflexivity. Qed.

(** Where the marker text can occur in a prompt: only inside one of the
    four interpolated values. *)
Lemma includes_marker_prompt :
  includes (buildReviewPrompt diffText prContext) truncatedMarker
  = includes theTitle truncatedMarker
    || includes theAuthor truncatedMarker
    || includes theDescription truncatedMarker
    || includes (embeddedDiff diffText) truncatedMarker.
Proof.
  unfold buildReviewPrompt.
  fold theTitle theAuthor theDescription.
  rewrite includes_lines;
    [| discriminate
     | vm_compute; intuition discriminate ].
  rewrite existsb_app. cbn [templateHeader existsb].
  rewrite (@includes_after_label (js "- Title: ") theTitle truncatedMarker 40%N);
    [| reflexivity | vm_compute; intuition discriminate ].
  rewrite (@includes_after_label (js "- Author: ") theAuthor truncatedMarker 40%N);
    [| reflexivity | vm_compute; intuition discriminate ].
  rewrite (@includes_after_label (js "- Description: ") theDescription truncatedMarker 40%N);
    [| reflexivity | vm_compute; intuition discriminate ].
  replace (existsb (fun l => includes l truncatedMarker) templateFooter)
    with false by (vm_compute; reflexivity).
  repeat match goal with |- context [includes (js ?s) truncatedMarker] =>
    let b := eval vm_compute in (includes (js s) truncatedMarker) in
    change (includes (js s) truncatedMarker) with b end.
  cbn [orb]. rewrite !orb_false_r, !orb_assoc. reflexivity.
Qed.

Lemma embeddedDiff_length :
  length (embeddedDiff diffText) <= truncationBound + 16.
Proof.
  destruct (Nat.le_gt_cases (length diffText) truncationBound) as [H|H].
  - rewrite embeddedDiff_short by assumption. lia.
  - rewrite embeddedDiff_long by assumption.
    rewrite length_app, length_firstn. cbn [length js map list_ascii_of_string].
    lia.
Qed.

Lemma buildReviewPrompt_length :
  length (buildReviewPrompt diffText prContext)
  = templateOverhead + length theTitle + length theAuthor
    + length theDescription + length (embeddedDiff diffText).
Proof.
  rewrite buildReviewPrompt_split, !length_app.
  rewrite promptBefore_length, promptAfter_length.
  fold theTitle theAuthor theDescription. unfold templateOverhead. lia.
Qed.

End PromptBuilder.

(** C3, as stated, fails at the bound itself: a diff of exactly 8000 code
    units is "at or above the bound", yet it is embedded whole and the
    prompt carries no "(truncated)" marker. *)
Lemma truncation_marker_absent_at_bound :
  ~ (forall diffText prContext,
        truncationBound <= length diffText ->
        includes (buildReviewPrompt diffText prContext) truncatedMarker = true).
Proof.
  intros H.
  specialize (H (repeat 97%N truncationBound) (mkPRContext None None None)).
  rewrite repeat_length in H. specialize (H (Nat.le_refl _)).
  rewrite includes_marker_prompt, embeddedDiff_short in H
    by (rewrite repeat_length; apply Nat.le_refl).
  vm_compute in H. discriminate.
Qed.

(** C3, amended: a diff of at most 8000 code units is embedded verbatim
    between the fixed parts of the prompt, and the text "(truncated)" then
    occurs in the prompt only if the title, author, description or diff
    contains it; a diff of more than 8000 code units is embedded as its
    first 8000 code units, exactly 8000 long, followed by the marker line,
    and the prompt contains "(truncated)". *)
Theorem buildReviewPrompt_truncation (diffText : jsstring) (prContext : PRContext) :
  (length diffText <= truncationBound ->
     buildReviewPrompt diffText prContext
     = promptBefore prContext ++ diffText ++ promptAfter
     /\ includes (buildReviewPrompt diffText prContext) truncatedMarker
        = includes (orDefault [] (title prContext)) truncatedMarker
          || includes (orDefault [] (author prContext)) truncatedMarker
          || includes (orDefault [] (description prContext)) truncatedMarker
          || includes diffText truncatedMarker)
  /\
  (truncationBound < length diffText ->
     buildReviewPrompt diffText prContext
     = promptBefore prContext
         ++ (firstn truncationBound diffText ++ newline :: js "... (truncated)")
         ++ promptAfter
     /\ length (firstn truncationBound diffText) = truncationBound
     /\ includes (buildReviewPrompt diffText prContext) truncatedMarker = true).
Proof.
  split; intros H.
  - rewrite includes_marker_prompt, buildReviewPrompt_split.
    rewrite embeddedDiff_short by assumption. split; reflexivity.
  - rewrite includes_marker_prompt, buildReviewPrompt_split.
    rewrite embeddedDiff_long by assumption. repeat split.
    + rewrite length_firstn. lia.
    + apply orb_true_iff; right. apply includes_occurs.
      exists (firstn truncationBound diffText ++ newline :: js "... "), [].
      rewrite app_nil_r, <- app_assoc. reflexivity.
Qed.

Lemma buildReviewPrompt_truncation_witness :
  (buildReviewPrompt (js "+x") (mkPRContext None None None)
   = promptBefore (mkPRContext None None None) ++ js "+x" ++ promptAfter)
  /\ includes (buildReviewPrompt (repeat 97%N 8001) (mkPRContext None None None))
       truncatedMarker = true.
Proof.
  split.
  - apply (buildReviewPrompt_truncation (js "+x") (mkPRContext None None None)).
    apply Nat.leb_le. vm_compute. reflexivity.
  - apply (buildReviewPrompt_truncation (repeat 97%N 8001) (mkPRContext None None None)).
    apply Nat.ltb_lt. vm_compute. reflexivity.
Defined.

(** C4, as stated, fails: the title, author and description are embedded
    whole, so no constant bounds the prompt length beyond the truncation
    bound. *)
Lemma prompt_length_has_no_fixed_bound :
  ~ exists overhead : nat,
      forall diffText prContext,
        length (buildReviewPrompt diffText prContext) <= truncationBound + overhead.
Proof.
  intros [overhead H].
  specialize (H [] (mkPRContext (Some (repeat 97%N (truncationBound + overhead + 1)))
                      None None)).
  rewrite buildReviewPrompt_length in H. cbn [title orDefault] in H.
  rewrite repeat_length in H. lia.
Qed.

(** C4, amended: the prompt is longer than the interpolated values by the
    933 code units of the template; its length is at most the truncation
    bound plus the template overhead, the 16 code units of the marker line
    and the lengths of the title, author and description. *)
Theorem buildReviewPrompt_length_bound (diffText : jsstring) (prContext : PRContext) :
  length (buildReviewPrompt diffText prContext)
  = templateOverhead
    + length (orDefault [] (title prContext))
    + length (orDefault [] (author prContext))
    + length (orDefault [] (description prContext))
    + length (embeddedDiff diffText)
  /\ length (embeddedDiff diffText) <= truncationBound + 16
  /\ length (buildReviewPrompt diffText prContext)
     <= truncationBound + (templateOverhead + 16)
        + length (orDefault [] (title prContext))
        + length (orDefault [] (author prContext))
        + length (orDefault [] (description prContext)).
Proof.
  pose proof (embeddedDiff_length diffText) as He.
  rewrite buildReviewPrompt_length. repeat split; [assumption|lia].
Qed.

(* ===================================================================== *)
(** ** The availability probe *)
(* ===================================================================== *)

Section Probe.

Variable this : OllamaLLM.
Variable w : World.

Let tagsURL := baseURL this ++ js "/api/tags".

(** The configured base name is a prefix of the configured name. *)
Lemma baseName_prefix (s : jsstring) : exists rest, s = baseName s ++ rest.
Proof.
  unfold baseName. induction s as [|c s [rest IH]]; [now exists []|].
  cbn [split]. destruct (c =? colon)%N.
  - now exists (c :: s).
  - destruct (split colon s) as [|p ps]; cbn [hd] in *.
    + now exists s.
    + exists rest. now rewrite IH at 1.
Qed.

Lemma existsb_includes (catalog : list ModelEntry) (sub : jsstring) :
  existsb (fun m => includes (name m) sub) catalog = true
  <-> exists m, In m catalog /\ occurs sub (name m).
Proof.
  rewrite existsb_exists. split; intros (m & Hin & H); exists m; split; trivial;
    now apply includes_occurs.
Qed.

(** The probe makes one catalog request and always resolves. *)
Lemma checkOllamaStatus_run :
  run (checkOllamaStatus this) w
  = (Returned
       match world_get w tagsURL with
       | Returned (Some d) =>
           let catalog := match models d with Some l => l | None => [] end in
           {| running := true;
              modelAvailable :=
                existsb (fun m => includes (name m) (baseName (model this))) catalog;
              availableModels := Some (map name catalog);
              status_error := None |}
       | Returned None =>
           {| running := false; modelAvailable := false; availableModels := None;
              status_error := message (TypeError "models") |}
       | Threw e =>
           {| running := false; modelAvailable := false; availableModels := None;
              status_error := message e |}
       end,
     [AxiosGet tagsURL]).
Proof.
  unfold run, checkOllamaStatus, tryCatch, bind, axios_get. fold tagsURL.
  destruct (world_get w tagsURL) as [[d|]|e]; reflexivity.
Qed.

End Probe.

(** C5, as stated, fails: with model [gemma:2b] configured and only
    [codegemma:7b] installed, no listed model has the base name [gemma],
    yet the probe reports the model as available. *)
Lemma modelAvailable_without_shared_base_name :
  (exists st log,
      run (checkOllamaStatus localOllama)
        (worldOf ["codegemma:7b"%string] (Threw connectionRefused) (Threw commandNotFound))
      = (Returned st, log)
      /\ modelAvailable st = true)
  /\ ~ (exists m, In m [ {| name := js "codegemma:7b" |} ]
                  /\ baseName (name m) = baseName (model localOllama)).
Proof.
  split.
  - eexists _, _. rewrite checkOllamaStatus_run. split; reflexivity.
  - intros (m & [<-|[]] & H). vm_compute in H. discriminate.
Qed.

(** C5, amended: on a successful catalog probe, [modelAvailable] is true
    if and only if the name of some listed model contains the configured
    model's base name (the part before the first [':']) as a substring;
    in particular a listed model with the same base name matches whatever
    its tag, and the catalog entries are reported in order. *)
Theorem checkOllamaStatus_modelAvailable (this : OllamaLLM) (w : World) (d : TagsData) :
  world_get w (baseURL this ++ js "/api/tags") = Returned (Some d) ->
  let catalog := match models d with Some l => l | None => [] end in
  exists st log,
    run (checkOllamaStatus this) w = (Returned st, log)
    /\ running st = true
    /\ availableModels st = Some (map name catalog)
    /\ (modelAvailable st = true
        <-> exists m, In m catalog /\ occurs (baseName (model this)) (name m))
    /\ ((exists m, In m catalog /\ baseName (name m) = baseName (model this))
        -> modelAvailable st = true).
Proof.
  intros Hget catalog. eexists _, _.
  rewrite checkOllamaStatus_run, Hget. split; [reflexivity|].
  cbn [running availableModels modelAvailable]. fold catalog.
  split; [reflexivity|]. split; [reflexivity|]. split.
  - apply existsb_includes.
  - intros (m & Hin & Hbase). apply existsb_includes. exists m; split; trivial.
    destruct (baseName_prefix (name m)) as [rest E].
    exists [], rest. now rewrite <- Hbase.
Qed.

Lemma checkOllamaStatus_modelAvailable_witness :
  exists st log,
    run (checkOllamaStatus localOllama)
      (worldOf ["gemma"%string] (Threw connectionRefused) (Threw commandNotFound))
    = (Returned st, log)
    /\ modelAvailable st = true.
Proof.
  destruct (@checkOllamaStatus_modelAvailable localOllama
              (worldOf ["gemma"%string] (Threw connectionRefused) (Threw commandNotFound))
              {| models := Some [ {| name := js "gemma" |} ] |} eq_refl)
    as (st & log & Hrun & _ & _ & _ & Hsame).
  exists st, log. split; [exact Hrun|].
  apply Hsame. exists {| name := js "gemma" |}. split; [now left|reflexivity].
Defined.

(** C9: the probe never throws.  Every run resolves to a status object,
    and when the catalog request fails in transport the object is
    [{running: false, modelAvailable: false, error: <message>}]. *)
Theorem checkOllamaStatus_never_throws (this : OllamaLLM) (w : World) :
  (exists st log, run (checkOllamaStatus this) w = (Returned st, log))
  /\ (forall e,
        world_get w (baseURL this ++ js "/api/tags") = Threw e ->
        fst (run (checkOllamaStatus this) w)
        = Returned {| running := false; modelAvailable := false;
                      availableModels := None; status_error := message e |}).
Proof.
  rewrite checkOllamaStatus_run. split.
  - eexists _, _. reflexivity.
  - intros e ->. reflexivity.
Qed.

Lemma checkOllamaStatus_never_throws_witness :
  fst (run (checkOllamaStatus localOllama) serviceDown)
  = Returned {| running := false; modelAvailable := false;
                availableModels := None;
                status_error := Some (js "connect ECONNREFUSED 127.0.0.1:11434") |}.
Proof.
  exact (proj2 (checkOllamaStatus_never_throws localOllama serviceDown)
           connectionRefused eq_refl).
Defined.

(* ===================================================================== *)
(** ** The review generator *)
(* ===================================================================== *)

Section Generator.

Variable this : OllamaLLM.
Variable diffText : jsstring.
Variable prContext : PRContext.
Variable w : World.

Let prompt := buildReviewPrompt diffText prContext.
Let command := cliCommand this (escapePrompt prompt).
Let generateURL := baseURL this ++ js "/api/generate".
Let request :=
  {| req_model := model this; req_prompt := prompt;
     req_stream := false; req_options := generateOptions |}.

(** The subprocess path runs one command and always resolves. *)
Lemma generateReviewCLI_run (log : list Event) :
  generateReviewCLI this diffText prContext w log
  = (Returned (cliResult this diffText prContext w), log ++ [ExecAsync command maxBuffer]).
Proof.
  unfold generateReviewCLI, cliResult, tryCatch, bind, execAsync, failure.
  cbv zeta. fold prompt. fold command.
  destruct (world_exec w command maxBuffer) as [out|e]; [|reflexivity].
  destruct (truthy (stderr out) && negb (truthy (stdout out))); reflexivity.
Qed.

(** The structured path posts once. *)
Lemma structuredPath_run (log : list Event) :
  structuredPath this diffText prContext w log
  = (structuredOutcome this diffText prContext w,
     log ++ [AxiosPost generateURL request]).
Proof.
  unfold structuredPath, structuredOutcome, bind, axios_post, failure. cbv zeta.
  fold prompt. fold generateURL. fold request.
  destruct (world_post w generateURL request) as [response_data|e]; [|reflexivity].
  destruct (generatedValue response_data) as [[text|other]|]; reflexivity.
Qed.

(** The generator runs the subprocess path exactly when the structured
    path throws. *)
Lemma generateReview_run :
  run (generateReview this diffText prContext) w
  = match structuredOutcome this diffText prContext w with
    | Returned r => (Returned r, [AxiosPost generateURL request])
    | Threw _ =>
        (Returned (cliResult this diffText prContext w),
         [AxiosPost generateURL request; ExecAsync command maxBuffer])
    end.
Proof.
  unfold run, generateReview, tryCatch. rewrite structuredPath_run.
  destruct (structuredOutcome this diffText prContext w) as [r|e]; [reflexivity|].
  rewrite generateReviewCLI_run. reflexivity.
Qed.

(** When the structured path throws: the request is rejected, or it
    resolves with a truthy value that is not a string. *)
Lemma structuredOutcome_threw :
  (exists e, structuredOutcome this diffText prContext w = Threw e)
  <-> (exists e, world_post w generateURL request = Threw e)
      \/ (exists response_data isTruthy,
             world_post w generateURL request = Returned response_data
             /\ generatedValue response_data = Some (OtherValue isTruthy)).
Proof.
  unfold structuredOutcome. cbv zeta. fold prompt. fold generateURL. fold request.
  destruct (world_post w generateURL request) as [response_data|e].
  - destruct (generatedValue response_data) as [[text|other]|] eqn:Hg; split.
    + intros [e H]. discriminate H.
    + intros [[e H] | (rd & b & [= <-] & H)]; [discriminate H|].
      rewrite Hg in H. discriminate H.
    + intros _. right. now exists response_data, other.
    + intros _. now eexists.
    + intros [e H]. discriminate H.
    + intros [[e H] | (rd & b & [= <-] & H)]; [discriminate H|].
      rewrite Hg in H. discriminate H.
  - split; intros _; [left|]; now exists e.
Qed.

(** What the structured path returns when it does not throw. *)
Lemma structuredOutcome_returned (r : ReviewResult) :
  structuredOutcome this diffText prContext w = Returned r ->
  (exists response_data text,
      world_post w generateURL request = Returned response_data
      /\ generatedValue response_data = Some (TextValue text)
      /\ r = {| success := true; review := Some (trim text);
                review_model := Some (model this);
                method := None; error := None |})
  \/ (exists response_data,
         world_post w generateURL request = Returned response_data
         /\ generatedValue response_data = None
         /\ r = failure (Some (js "No response from Ollama"))).
Proof.
  unfold structuredOutcome. cbv zeta. fold prompt. fold generateURL. fold request.
  destruct (world_post w generateURL request) as [response_data|e]; [|discriminate].
  destruct (generatedValue response_data) as [[text|other]|] eqn:Hg;
    intros [= <-].
  - left. now exists response_data, text.
  - right. now exists response_data.
Qed.

Lemma escapePrompt_unitwise (p : jsstring) :
  escapePrompt p = flat_map escapeUnit p.
Proof.
  unfold escapePrompt, replaceAll.
  induction p as [|c p IH]; [reflexivity|].
  cbn [flat_map]. rewrite flat_map_app, IH. f_equal.
  unfold escapeUnit.
  destruct (N.eqb_spec c dquote) as [->|Hq]; [reflexivity|].
  cbn [flat_map app orb]. rewrite app_nil_r.
  destruct (N.eqb_spec c backtick) as [->|Hb]; reflexivity.
Qed.

End Generator.

(** C1, as stated, fails for the "empty output" failure: when the
    generation endpoint answers with an empty [response] field the
    generator resolves to a failure without running the subprocess. *)
Lemma empty_output_skips_fallback :
  exists log,
    run (generateReview localOllama (js "+x") noContext) emptyOutput
    = (Returned (failure (Some (js "No response from Ollama"))), log)
    /\ existsb isExec log = false.
Proof.
  eexists. rewrite generateReview_run. split; reflexivity.
Qed.

(** C1, amended: whenever the structured path throws, the subprocess
    path is attempted, whatever was thrown, and its result is the final
    result.  The structured path throws when the request is rejected
    (network error, non-2xx status) and when the request resolves with a
    truthy output that is not a string, on which [.trim()] throws.  An
    output field that is empty or absent in a resolved response is no
    exception: the result is the failure ["No response from Ollama"] and
    no subprocess is run; neither is one run after a non-empty string
    output. *)
Theorem generateReview_fallback (this : OllamaLLM) (diffText : jsstring)
    (prContext : PRContext) (w : World) :
  let prompt := buildReviewPrompt diffText prContext in
  let url := baseURL this ++ js "/api/generate" in
  let request := {| req_model := model this; req_prompt := prompt;
                    req_stream := false; req_options := generateOptions |} in
  let exec := ExecAsync (cliCommand this (escapePrompt prompt)) maxBuffer in
  (forall e log,
      structuredPath this diffText prContext w [] = (Threw e, log) ->
      run (generateReview this diffText prContext) w
      = generateReviewCLI this diffText prContext w log
      /\ snd (run (generateReview this diffText prContext) w)
         = [AxiosPost url request; exec])
  /\ ((exists e log, structuredPath this diffText prContext w [] = (Threw e, log))
      <-> (exists e, world_post w url request = Threw e)
          \/ (exists response_data isTruthy,
                 world_post w url request = Returned response_data
                 /\ generatedValue response_data = Some (OtherValue isTruthy)))
  /\ (forall response_data,
        world_post w url request = Returned response_data ->
        generatedValue response_data = None ->
        run (generateReview this diffText prContext) w
        = (Returned (failure (Some (js "No response from Ollama"))),
           [AxiosPost url request]))
  /\ (forall response_data text,
        world_post w url request = Returned response_data ->
        generatedValue response_data = Some (TextValue text) ->
        snd (run (generateReview this diffText prContext) w) = [AxiosPost url request]).
Proof.
  cbv zeta. split; [|split; [|split]].
  - intros e log H. rewrite structuredPath_run in H. injection H as Ho <-.
    rewrite generateReview_run, generateReviewCLI_run, Ho. split; reflexivity.
  - rewrite <- structuredOutcome_threw. split.
    + intros (e & log & H). rewrite structuredPath_run in H. injection H as Ho _.
      now exists e.
    + intros [e H]. exists e. eexists. rewrite structuredPath_run, H. reflexivity.
  - intros response_data Hr Hg. rewrite generateReview_run.
    unfold structuredOutcome. cbv zeta. now rewrite Hr, Hg.
  - intros response_data text Hr Hg. rewrite generateReview_run.
    unfold structuredOutcome. cbv zeta. now rewrite Hr, Hg.
Qed.

Lemma generateReview_fallback_witness :
  fst (run (generateReview localOllama (js "+x") noContext) http500)
  = Returned {| success := true; review := Some (js "LGTM");
                review_model := Some (js "gemma:2b");
                method := Some (js "CLI"); error := None |}
  /\ fst (run (generateReview localOllama (js "+x") noContext) numericOutput)
     = Returned {| success := true; review := Some (js "LGTM");
                   review_model := Some (js "gemma:2b");
                   method := Some (js "CLI"); error := None |}.
Proof.
  split.
  - rewrite (proj1 (proj1 (generateReview_fallback localOllama (js "+x") noContext http500)
                      (requestFailed 500) _ eq_refl)).
    rewrite generateReviewCLI_run. reflexivity.
  - rewrite (proj1 (proj1 (generateReview_fallback localOllama (js "+x") noContext
                             numericOutput)
                      (NotAFunction "response.data.response.trim") _ eq_refl)).
    rewrite generateReviewCLI_run. reflexivity.
Defined.

(** C2, as stated, fails on the structured path: its successful result
    has no [method] property at all. *)
Lemma api_success_has_no_method :
  exists r log,
    run (generateReview localOllama (js "+x") noContext) apiAnswers = (Returned r, log)
    /\ success r = true
    /\ existsb isExec log = false
    /\ method r <> Some (js "API").
Proof.
  eexists _, _. rewrite generateReview_run. repeat split. discriminate.
Qed.

(** C2, amended: a successful result that the structured path itself
    returns carries no [method] property, and the HTTP route that reports
    it fills in ["API"] ([reviewResult.method || 'API']); its review is
    the trimmed output string.  A successful result reached after the
    structured path threw, be it on a rejected request or on [.trim()] of
    a non-string output, carries [method: "CLI"]. *)
Theorem generateReview_method (this : OllamaLLM) (diffText : jsstring)
    (prContext : PRContext) (w : World) :
  let url := baseURL this ++ js "/api/generate" in
  let request := {| req_model := model this;
                    req_prompt := buildReviewPrompt diffText prContext;
                    req_stream := false; req_options := generateOptions |} in
  exists r log,
    run (generateReview this diffText prContext) w = (Returned r, log)
    /\ (forall r0 log0,
          structuredPath this diffText prContext w [] = (Returned r0, log0) ->
          r = r0
          /\ (success r = true ->
              method r = None /\ reportedMethod r = js "API"
              /\ exists response_data text,
                   world_post w url request = Returned response_data
                   /\ generatedValue response_data = Some (TextValue text)
                   /\ review r = Some (trim text)))
    /\ (forall e log0,
          structuredPath this diffText prContext w [] = (Threw e, log0) ->
          success r = true ->
          method r = Some (js "CLI") /\ reportedMethod r = js "CLI").
Proof.
  cbv zeta. rewrite generateReview_run.
  destruct (structuredOutcome this diffText prContext w) as [r|e] eqn:Ho.
  - eexists _, _. split; [reflexivity|]. split.
    + intros r0 log0 H. rewrite structuredPath_run, Ho in H. injection H as <- _.
      split; [reflexivity|]. intros Hs.
      unfold structuredOutcome in Ho. cbv zeta in Ho.
      destruct (world_post w _ _) as [response_data|e]; [|discriminate Ho].
      destruct (generatedValue response_data) as [[text|other]|] eqn:Hg;
        try discriminate Ho; injection Ho as <-; [|discriminate Hs].
      repeat split. now exists response_data, text.
    + intros e log0 H. rewrite structuredPath_run, Ho in H. discriminate H.
  - eexists _, _. split; [reflexivity|]. split.
    + intros r0 log0 H. rewrite structuredPath_run, Ho in H. discriminate H.
    + intros _ _ _. unfold cliResult.
      destruct (world_exec w _ _) as [out|e']; [|discriminate].
      destruct (truthy (stderr out) && negb (truthy (stdout out))); [discriminate|].
      intros _. split; reflexivity.
Qed.

Lemma generateReview_method_witness :
  (exists r,
      fst (run (generateReview localOllama (js "+x") noContext) http500) = Returned r
      /\ method r = Some (js "CLI"))
  /\ (exists r,
        fst (run (generateReview localOllama (js "+x") noContext) numericOutput)
        = Returned r
        /\ method r = Some (js "CLI"))
  /\ (exists r,
        fst (run (generateReview localOllama (js "+x") noContext) apiAnswers) = Returned r
        /\ method r = None /\ reportedMethod r = js "API").
Proof.
  split; [|split].
  - destruct (generateReview_method localOllama (js "+x") noContext http500)
      as (r & log & Hrun & _ & Hcli).
    exists r. split.
    + now rewrite Hrun.
    + apply (Hcli (requestFailed 500) _ eq_refl).
      rewrite generateReview_run in Hrun. injection Hrun as <- _. reflexivity.
  - destruct (generateReview_method localOllama (js "+x") noContext numericOutput)
      as (r & log & Hrun & _ & Hcli).
    exists r. split.
    + now rewrite Hrun.
    + apply (Hcli (NotAFunction "response.data.response.trim") _ eq_refl).
      rewrite generateReview_run in Hrun. injection Hrun as <- _. reflexivity.
  - destruct (generateReview_method localOllama (js "+x") noContext apiAnswers)
      as (r & log & Hrun & Hapi & _).
    exists r. split.
    + now rewrite Hrun.
    + assert (Hs : success r = true).
      { rewrite generateReview_run in Hrun. injection Hrun as <- _. reflexivity. }
      destruct (Hapi _ _ eq_refl) as (_ & Hm). destruct (Hm Hs) as (H1 & H2 & _).
      now split.
Defined.

(** C8, as stated, fails when the subprocess exits normally and prints
    nothing on either stream: the result is a success with an empty
    review, although standard output is empty. *)
Lemma silent_subprocess_counts_as_success :
  exists r log,
    generateReviewCLI localOllama (js "+x") noContext silentSubprocess [] = (Returned r, log)
    /\ world_exec silentSubprocess
         (cliCommand localOllama (escapePrompt (buildReviewPrompt (js "+x") noContext)))
         maxBuffer
       = Returned {| stdout := []; stderr := [] |}
    /\ success r = true
    /\ review r = Some [].
Proof.
  eexists _, _. rewrite generateReviewCLI_run. repeat split.
Qed.

(** C8, amended: the subprocess path runs the command once and always
    resolves, with no further call.  It resolves to
    [{success: true, review: <trimmed stdout>, model, method: "CLI"}]
    exactly when the subprocess exits normally and it is not the case that
    standard error is non-empty while standard output is empty; it
    resolves to [{success: false, error: <stderr>}] when standard error is
    non-empty and standard output empty, and to
    [{success: false, error: <exception message>}] when the subprocess
    fails. *)
Theorem generateReviewCLI_result (this : OllamaLLM) (diffText : jsstring)
    (prContext : PRContext) (w : World) (log : list Event) :
  let command := cliCommand this (escapePrompt (buildReviewPrompt diffText prContext)) in
  exists r,
    generateReviewCLI this diffText prContext w log
    = (Returned r, log ++ [ExecAsync command maxBuffer])
    /\ (forall out,
          world_exec w command maxBuffer = Returned out ->
          (truthy (stdout out) = true \/ truthy (stderr out) = false) ->
          r = {| success := true; review := Some (trim (stdout out));
                 review_model := Some (model this);
                 method := Some (js "CLI"); error := None |})
    /\ (forall out,
          world_exec w command maxBuffer = Returned out ->
          truthy (stderr out) = true -> truthy (stdout out) = false ->
          r = failure (Some (stderr out)))
    /\ (forall e,
          world_exec w command maxBuffer = Threw e -> r = failure (message e)).
Proof.
  cbv zeta. rewrite generateReviewCLI_run. eexists. split; [reflexivity|].
  unfold cliResult. repeat split.
  - intros out -> H.
    destruct (truthy (stdout out)), (truthy (stderr out)); try reflexivity.
    destruct H; discriminate.
  - intros out -> -> ->. reflexivity.
  - intros e ->. reflexivity.
Qed.

Lemma generateReviewCLI_result_witness :
  fst (generateReviewCLI localOllama (js "+x") noContext http500 [])
  = Returned {| success := true; review := Some (js "LGTM");
                review_model := Some (js "gemma:2b");
                method := Some (js "CLI"); error := None |}
  /\ fst (generateReviewCLI localOllama (js "+x") noContext serviceDown [])
     = Returned (failure (Some (js "Command failed: ollama run"))).
Proof.
  split.
  - destruct (generateReviewCLI_result localOllama (js "+x") noContext http500 [])
      as (r & Hrun & Hok & _ & _).
    rewrite Hrun. cbn [fst]. f_equal.
    apply (Hok lgtm eq_refl). left; reflexivity.
  - destruct (generateReviewCLI_result localOllama (js "+x") noContext serviceDown [])
      as (r & Hrun & _ & _ & Hthrow).
    rewrite Hrun. cbn [fst]. f_equal.
    apply (Hthrow commandNotFound eq_refl).
Defined.

(** C10: the command handed to the subprocess is [ollama run <model> ]
    followed by the prompt between double quotes, in which each double
    quote and each backtick has a backslash put in front and every other
    code unit, the dollar sign and the backslash among them, is left as
    it is. *)
Theorem cliCommand_escaping (this : OllamaLLM) (diffText : jsstring)
    (prContext : PRContext) (w : World) (log : list Event) :
  let prompt := buildReviewPrompt diffText prContext in
  snd (generateReviewCLI this diffText prContext w log)
  = log ++ [ExecAsync (js "ollama run " ++ model this ++ js " "
                         ++ [dquote] ++ flat_map escapeUnit prompt ++ [dquote])
              maxBuffer]
  /\ escapeUnit dquote = [backslash; dquote]
  /\ escapeUnit backtick = [backslash; backtick]
  /\ escapeUnit dollar = [dollar]
  /\ escapeUnit backslash = [backslash]
  /\ (forall c, c <> dquote -> c <> backtick -> escapePrompt [c] = [c])
  /\ (forall p q, escapePrompt (p ++ q) = escapePrompt p ++ escapePrompt q).
Proof.
  cbv zeta. rewrite generateReviewCLI_run, escapePrompt_unitwise.
  repeat split.
  - intros c Hq Hb. rewrite escapePrompt_unitwise. cbn [flat_map]. unfold escapeUnit.
    destruct (N.eqb_spec c dquote); [contradiction|].
    destruct (N.eqb_spec c backtick); [contradiction|reflexivity].
  - intros p q. rewrite !escapePrompt_unitwise. apply flat_map_app.
Qed.

Lemma cliCommand_escaping_witness :
  escapePrompt [dollar] = [dollar].
Proof.
  apply (cliCommand_escaping localOllama [] noContext serviceDown []); discriminate.
Defined.

(* ===================================================================== *)
(** ** The error classifier *)
(* ===================================================================== *)

Import ErrorHandler.

(** C6: the classifier is not total.  For a thrown value that has no
    upstream status, no error code and no message, [handle] reaches
    [error.message.includes('timeout')] and throws a TypeError instead of
    returning the unknown-error object; the same happens for an upstream
    status other than 401 and 404 whose response has no body. *)
Theorem handle_throws_without_message :
  handle bareError = Threw (TypeError "includes")
  /\ handle {| message := Some (js "Request failed with status code 403");
               code := None; address := None; port := None;
               response := Some {| status := Some 403%Z; data := None |} |}
     = Threw (TypeError "message").
Proof. split; reflexivity. Qed.

(** Where the classifier does return: a message string is present and,
    when an upstream status is, so is the response body. *)
Lemma handle_returns (error : JsError) (m : jsstring) :
  message error = Some m ->
  (forall r, response error = Some r -> data r <> None) ->
  exists info, handle error = Returned info.
Proof.
  intros Hm Hdata. unfold handle, upstreamStatus.
  destruct (response error) as [r|] eqn:Hr.
  - specialize (Hdata r eq_refl).
    destruct (status r) as [st|]; [destruct (st =? 0)%Z|].
    2:{ unfold handleStatus. destruct (data r) as [d|]; [|congruence].
        destruct (st =? 401)%Z; [eauto|].
        destruct (st =? 403)%Z.
        { destruct (data_message d) as [dm|]; [|eauto].
          destruct (truthy dm && includes dm (js "rate limit")); eauto. }
        destruct (st =? 404)%Z; [eauto|].
        destruct (st =? 422)%Z; eauto. }
    all: unfold handleLocal; rewrite Hm;
      repeat match goal with |- context [if ?b then _ else _] => destruct b end; eauto.
  - unfold handleLocal; rewrite Hm;
      repeat match goal with |- context [if ?b then _ else _] => destruct b end; eauto.
Qed.

(** An input that matches no earlier rule and carries a non-empty message
    is classified as unknown, with that message. *)
Lemma handle_unknown (m : jsstring) :
  truthy m = true -> includes m (js "timeout") = false ->
  handle {| message := Some m; code := None; address := None; port := None;
            response := None |}
  = Returned {| type := UNKNOWN_ERROR; info_message := m;
                suggestion := js "Please check the logs for more details" |}.
Proof.
  intros Ht Hi. unfold handle, upstreamStatus, handleLocal.
  cbn [response message code address port strictEq andb orb orElse].
  now rewrite Hi, Ht.
Qed.

(** C7, as stated, fails: in the program a 403 without rate-limit wording
    and a 422 get the very same type ([INVALID_REPO]) while a 404 gets
    another one ([INVALID_PR]), so no reading of the type as a kind sends
    the other 403 and 404 to one kind and 422 to a different kind. *)
Lemma status_kinds_do_not_match_types :
  ~ exists kind : ErrorType -> SpecKind,
      forall st msg,
        st <> 0%Z ->
        exists info,
          handle (upstreamError st msg) = Returned info
          /\ kind (type info) = specKindOfStatus st {| data_message := msg |}.
Proof.
  intros [kind H].
  destruct (H 403%Z None) as (i403 & H403 & K403); [discriminate|].
  destruct (H 422%Z None) as (i422 & H422 & K422); [discriminate|].
  vm_compute in H403, H422.
  injection H403 as <-. injection H422 as <-.
  cbn in K403, K422. congruence.
Qed.

Lemma rateLimitWording_truthy (m : jsstring) :
  truthy m && includes m (js "rate limit") = includes m (js "rate limit").
Proof. destruct m; reflexivity. Qed.

(** C7, amended: a failure that carries a non-zero upstream status is
    classified by that status before any other rule.  401 gives
    [GITHUB_AUTH]; 404 gives [INVALID_PR], whose suggestion is to verify
    that the pull request number exists; and when the response has a body,
    403 with a message containing "rate limit" gives [RATE_LIMIT], any
    other 403 gives [INVALID_REPO], 422 gives [INVALID_REPO] as well, with
    the upstream message (or "Invalid request") in its message, and every
    other status gives [NETWORK_ERROR] with the status code and the
    upstream message (or "Unknown error") in its message. *)
Theorem handle_upstream_status (error : JsError) (r : ErrorResponse) (st : Z) :
  response error = Some r -> status r = Some st -> st <> 0%Z ->
  (st = 401%Z ->
     handle error
     = Returned {| type := GITHUB_AUTH;
                   info_message := js "Invalid or expired GitHub token. Please re-authenticate.";
                   suggestion := js "Visit http://localhost:5000/auth/login to re-authenticate" |})
  /\ (st = 404%Z ->
        handle error
        = Returned {| type := INVALID_PR;
                      info_message := js "Pull request or repository not found.";
                      suggestion := js "Verify the pull request number exists" |})
  /\ (forall d, data r = Some d ->
        (st = 403%Z -> rateLimitWording d = true ->
           handle error
           = Returned {| type := RATE_LIMIT;
                         info_message := orDefault [] (data_message d)
                                           ++ js ". Try again later.";
                         suggestion := getSuggestion RATE_LIMIT |})
        /\ (st = 403%Z -> rateLimitWording d = false ->
              handle error
              = Returned {| type := INVALID_REPO;
                            info_message := js "Access denied or repository not found.";
                            suggestion := getSuggestion INVALID_REPO |})
        /\ (st = 422%Z ->
              handle error
              = Returned {| type := INVALID_REPO;
                            info_message := js "GitHub API error: "
                                              ++ orElse (data_message d) (js "Invalid request");
                            suggestion := getSuggestion INVALID_REPO |})
        /\ (st <> 401%Z -> st <> 403%Z -> st <> 404%Z -> st <> 422%Z ->
              handle error
              = Returned {| type := NETWORK_ERROR;
                            info_message := js "GitHub API error (" ++ ofNumber st ++ js "): "
                                              ++ orElse (data_message d) (js "Unknown error");
                            suggestion := getSuggestion NETWORK_ERROR |})).
Proof.
  intros Hr Hs Hnz. unfold handle, upstreamStatus. rewrite Hr, Hs.
  destruct (Z.eqb_spec st 0) as [|_]; [contradiction|].
  split; [intros ->; reflexivity|]. split; [intros ->; reflexivity|].
  intros d ->. repeat split.
  - intros -> Hw. unfold handleStatus, rateLimitWording in *. cbn [Z.eqb Pos.eqb].
    destruct (data_message d) as [m|]; [|discriminate].
    now rewrite rateLimitWording_truthy, Hw.
  - intros -> Hw. unfold handleStatus, rateLimitWording in *. cbn [Z.eqb Pos.eqb].
    destruct (data_message d) as [m|]; [|reflexivity].
    now rewrite rateLimitWording_truthy, Hw.
  - intros ->. reflexivity.
  - intros H401 H403 H404 H422. unfold handleStatus.
    destruct (Z.eqb_spec st 401); [contradiction|].
    destruct (Z.eqb_spec st 403); [contradiction|].
    destruct (Z.eqb_spec st 404); [contradiction|].
    destruct (Z.eqb_spec st 422); [contradiction|]. reflexivity.
Qed.

Lemma handle_upstream_status_witness :
  handle (upstreamError 404 None)
  = Returned {| type := INVALID_PR;
                info_message := js "Pull request or repository not found.";
                suggestion := js "Verify the pull request number exists" |}
  /\ handle (upstreamError 403 (Some (js "API rate limit exceeded")))
     = Returned {| type := RATE_LIMIT;
                   info_message := js "API rate limit exceeded. Try again later.";
                   suggestion := getSuggestion RATE_LIMIT |}
  /\ handle (upstreamError 500 (Some (js "Server Error")))
     = Returned {| type := NETWORK_ERROR;
                   info_message := js "GitHub API error (500): Server Error";
                   suggestion := getSuggestion NETWORK_ERROR |}.
Proof.
  split; [|split].
  - destruct (@handle_upstream_status (upstreamError 404 None) _ 404%Z eq_refl eq_refl)
      as (_ & H404 & _); [discriminate|].
    exact (H404 eq_refl).
  - destruct (@handle_upstream_status
                (upstreamError 403 (Some (js "API rate limit exceeded")))
                _ 403%Z eq_refl eq_refl)
      as (_ & _ & Hbody); [discriminate|].
    destruct (Hbody _ eq_refl) as (Hrate & _).
    exact (Hrate eq_refl eq_refl).
  - destruct (@handle_upstream_status (upstreamError 500 (Some (js "Server Error")))
                _ 500%Z eq_refl eq_refl)
      as (_ & _ & Hbody); [discriminate|].
    destruct (Hbody _ eq_refl) as (_ & _ & _ & Hother).
    apply Hother; discriminate.
Defined.

(* ===================================================================== *)
(** ** More on the error classifier *)
(* ===================================================================== *)

Lemma truthy_app_r (a b : jsstring) : truthy b = true -> truthy (a ++ b) = true.
Proof. destruct a; [trivial|reflexivity]. Qed.

Lemma truthy_app_l (a b : jsstring) : truthy a = true -> truthy (a ++ b) = true.
Proof. destruct a; [discriminate|reflexivity]. Qed.

Lemma orElse_truthy (x : option jsstring) (fallback : jsstring) :
  truthy fallback = true -> truthy (orElse x fallback) = true.
Proof.
  intros H. unfold orElse. destruct x as [s|]; [|exact H].
  destruct (truthy s) eqn:E; [exact E|exact H].
Qed.

Lemma strictEq_true (x : option jsstring) (literal : string) :
  strictEq x literal = true <-> x = Some (js literal).
Proof.
  unfold strictEq. destruct x as [s|]; [|split; discriminate].
  destruct (list_eq_dec N.eq_dec s (js literal)) as [->|Hne]; split; trivial.
  - discriminate.
  - intros [= E]. contradiction.
Qed.

Import ErrorHandlerCases.

Lemma handleStatus_classified (error : JsError) (st : Z) (d : option ResponseData)
    (info : ErrorInfo) :
  upstreamStatus error = Some (st, d) ->
  handleStatus st d = Returned info -> Classified error info.
Proof.
  intros Hs. unfold handleStatus.
  destruct (Z.eqb_spec st 401) as [->|H401].
  { intros [= <-]. eapply ClassAuth; eassumption. }
  destruct (Z.eqb_spec st 403) as [->|H403].
  { destruct d as [d|]; [|discriminate].
    destruct (data_message d) as [m|] eqn:Hm.
    - rewrite rateLimitWording_truthy.
      destruct (includes m (js "rate limit")) eqn:Hi; intros [= <-].
      + eapply ClassRateLimit; eassumption.
      + eapply ClassDenied; [eassumption|]. unfold rateLimitWording. now rewrite Hm.
    - intros [= <-]. eapply ClassDenied; [eassumption|].
      unfold rateLimitWording. now rewrite Hm. }
  destruct (Z.eqb_spec st 404) as [->|H404].
  { intros [= <-]. eapply ClassNotFound; eassumption. }
  destruct (Z.eqb_spec st 422) as [->|H422].
  { destruct d as [d|]; [|discriminate]. intros [= <-].
    eapply ClassInvalid; eassumption. }
  destruct d as [d|]; [|discriminate]. intros [= <-].
  eapply ClassUpstream; eassumption.
Qed.

(** The rules after the connection-refused block, shared by every way of
    falling through it. *)
Ltac local_tail error not_ollama :=
  destruct (strictEq (code error) "ENOTFOUND") eqn:?H1;
    [ intros [= <-]; apply strictEq_true in H1; apply ClassNetwork; auto | ];
  destruct (strictEq (code error) "ECONNRESET") eqn:?H2;
    [ intros [= <-]; apply strictEq_true in H2; apply ClassNetwork; auto | ];
  cbn [orb];
  destruct (strictEq (code error) "ECONNABORTED") eqn:?H3;
    [ intros [= <-]; apply strictEq_true in H3; apply ClassAborted; auto | ];
  let m := fresh "m" in
  let Hm := fresh "Hm" in
  let Hi := fresh "Hi" in
  destruct (message error) as [m|] eqn:Hm; [|discriminate];
  destruct (includes m (js "timeout")) eqn:Hi; intros [= <-];
    [ eapply ClassTimeout; eassumption | ];
  eapply ClassUnknown; try eassumption; not_ollama.

Lemma handleLocal_classified (error : JsError) (info : ErrorInfo) :
  upstreamStatus error = None ->
  handleLocal error = Returned info -> Classified error info.
Proof.
  intros Hs. unfold handleLocal.
  destruct (strictEq (code error) "ECONNREFUSED" && strictEq (address error) "127.0.0.1")
    eqn:Href.
  - apply andb_true_iff in Href as [Hc Ha]. apply strictEq_true in Hc, Ha.
    cbn [andb]. destruct (port error) as [p|] eqn:Hp.
    + destruct (Z.eqb_spec p 11434) as [->|Hp1].
      { intros [= <-]. now apply ClassOllamaDown. }
      destruct (Z.eqb_spec p 5000) as [->|Hp2].
      { intros [= <-]. now apply ClassServerDown. }
      local_tail error ltac:(intros (_ & _ & E); congruence).
    + local_tail error ltac:(intros (_ & _ & E); congruence).
  - cbn [andb].
    local_tail error
      ltac:(intros (Hcode & Haddr & _);
            apply strictEq_true in Hcode, Haddr;
            rewrite Hcode, Haddr in Href; discriminate).
Qed.

Lemma handle_classified (error : JsError) (info : ErrorInfo) :
  handle error = Returned info -> Classified error info.
Proof.
  unfold handle. destruct (upstreamStatus error) as [[st d]|] eqn:Hs.
  - now apply handleStatus_classified.
  - now apply handleLocal_classified.
Qed.

(** X1: whatever [handle] returns has a non-empty message and a non-empty
    suggestion, and the suggestion depends on the type alone: the entry of
    the suggestion table for the type, or, for [UNKNOWN_ERROR], the advice
    to check the logs. *)
Theorem handle_result_wellformed (error : JsError) (info : ErrorInfo) :
  handle error = Returned info ->
  truthy (info_message info) = true
  /\ truthy (suggestion info) = true
  /\ suggestion info
     = match type info with
       | UNKNOWN_ERROR => js "Please check the logs for more details"
       | t => getSuggestion t
       end.
Proof.
  intros H. apply handle_classified in H.
  destruct H; cbn [createError type info_message suggestion];
    repeat split; try reflexivity.
  - now apply truthy_app_r.
  - now apply orElse_truthy.
Qed.

Lemma handle_result_wellformed_witness :
  truthy (info_message {| type := INVALID_PR;
                          info_message := js "Pull request or repository not found.";
                          suggestion := js "Verify the pull request number exists" |}) = true.
Proof.
  apply (@handle_result_wellformed (upstreamError 404 None)). reflexivity.
Defined.

(** X2: which inputs lead to which type.  [handle] never returns
    [MODEL_MISSING]; it returns [GITHUB_AUTH] exactly for status 401,
    [INVALID_PR] exactly for status 404, [RATE_LIMIT] exactly for status
    403 with a body whose message contains "rate limit", and [OLLAMA_DOWN]
    exactly for a failure without upstream status whose code is
    [ECONNREFUSED], address [127.0.0.1] and port 11434; [UNKNOWN_ERROR]
    only comes without an upstream status. *)
Theorem handle_type_characterised (error : JsError) (info : ErrorInfo) :
  handle error = Returned info ->
  type info <> MODEL_MISSING
  /\ (type info = GITHUB_AUTH <-> exists d, upstreamStatus error = Some (401%Z, d))
  /\ (type info = INVALID_PR <-> exists d, upstreamStatus error = Some (404%Z, d))
  /\ (type info = RATE_LIMIT
      <-> exists d, upstreamStatus error = Some (403%Z, Some d)
                    /\ rateLimitWording d = true)
  /\ (type info = OLLAMA_DOWN
      <-> upstreamStatus error = None
          /\ code error = Some (js "ECONNREFUSED")
          /\ address error = Some (js "127.0.0.1")
          /\ port error = Some 11434%Z)
  /\ (type info = UNKNOWN_ERROR -> upstreamStatus error = None).
Proof.
  intros H. pose proof (handle_classified _ H) as Hc.
  split; [destruct Hc; discriminate|].
  split; [split|].
  { intros Ht. destruct Hc; try discriminate Ht. eauto. }
  { intros [d Hs]. unfold handle in H. rewrite Hs in H.
    cbn in H. now injection H as <-. }
  split; [split|].
  { intros Ht. destruct Hc; try discriminate Ht. eauto. }
  { intros [d Hs]. unfold handle in H. rewrite Hs in H.
    cbn in H. now injection H as <-. }
  split; [split|].
  { intros Ht. destruct Hc; try discriminate Ht.
    exists d. split; [assumption|]. unfold rateLimitWording.
    now rewrite H1. }
  { intros (d & Hs & Hw). unfold handle in H. rewrite Hs in H.
    unfold handleStatus, rateLimitWording in *. cbn [Z.eqb Pos.eqb] in H.
    destruct (data_message d) as [m|]; [|discriminate].
    rewrite rateLimitWording_truthy, Hw in H. now injection H as <-. }
  split; [split|].
  { intros Ht. destruct Hc; try discriminate Ht. auto. }
  { intros (Hs & Hcode & Haddr & Hport). unfold handle, handleLocal in H.
    rewrite Hs, Hcode, Haddr, Hport in H. cbn in H. now injection H as <-. }
  intros Ht. destruct Hc; try discriminate Ht. assumption.
Qed.

Lemma handle_type_characterised_witness :
  type (createError OLLAMA_DOWN (js "Ollama is not running. Start with: ollama serve") None)
  <> MODEL_MISSING.
Proof.
  apply (@handle_type_characterised connectionRefused). reflexivity.
Defined.

(** X3: the rules for a failure without (truthy) upstream status, in
    their order.  A refused connection to 127.0.0.1:5000 is reported as
    the server not running; the codes [ENOTFOUND] and [ECONNRESET] give the
    network-failure message whatever the message says; the code
    [ECONNABORTED] gives the time-out message even when the error has no
    message at all; and without a code, a message containing "timeout"
    gives the time-out message. *)
Theorem handle_local_rules (error : JsError) :
  upstreamStatus error = None ->
  (code error = Some (js "ECONNREFUSED") -> address error = Some (js "127.0.0.1") ->
   port error = Some 5000%Z ->
   handle error
   = Returned {| type := NETWORK_ERROR;
                 info_message := js "Server is not running. Start with: npm start";
                 suggestion := js "Check your internet connection and try again" |})
  /\ (code error = Some (js "ENOTFOUND") \/ code error = Some (js "ECONNRESET") ->
      handle error
      = Returned {| type := NETWORK_ERROR;
                    info_message :=
                      js "Network connection failed. Check your internet connection.";
                    suggestion := js "Check your internet connection and try again" |})
  /\ (code error = Some (js "ECONNABORTED") ->
      handle error
      = Returned {| type := NETWORK_ERROR;
                    info_message := js "Request timed out. Please try again.";
                    suggestion := js "Check your internet connection and try again" |})
  /\ (forall m, code error = None -> message error = Some m ->
      includes m (js "timeout") = true ->
      handle error
      = Returned {| type := NETWORK_ERROR;
                    info_message := js "Request timed out. Please try again.";
                    suggestion := js "Check your internet connection and try again" |}).
Proof.
  intros Hs. unfold handle, handleLocal. rewrite Hs. repeat split.
  - intros -> -> ->. reflexivity.
  - intros [-> | ->]; reflexivity.
  - intros ->. reflexivity.
  - intros m -> -> Hi. cbn [strictEq andb orb]. now rewrite Hi.
Qed.

Lemma handle_local_rules_witness :
  handle {| message := None; code := Some (js "ECONNABORTED");
            address := None; port := None; response := None |}
  = Returned {| type := NETWORK_ERROR;
                info_message := js "Request timed out. Please try again.";
                suggestion := js "Check your internet connection and try again" |}.
Proof.
  apply (@handle_local_rules
           {| message := None; code := Some (js "ECONNABORTED");
              address := None; port := None; response := None |});
    reflexivity.
Defined.

(** X4: a refused connection counts as the inference service or the
    server being down only for the address [127.0.0.1] and the ports 11434
    and 5000.  Refused at any other address (such as [::1]) or port, with a
    message that does not mention "timeout", it is an [UNKNOWN_ERROR]
    carrying that message. *)
Theorem handle_refused_elsewhere (error : JsError) (m : jsstring) :
  upstreamStatus error = None ->
  code error = Some (js "ECONNREFUSED") ->
  address error <> Some (js "127.0.0.1")
  \/ (port error <> Some 11434%Z /\ port error <> Some 5000%Z) ->
  message error = Some m -> truthy m = true -> includes m (js "timeout") = false ->
  handle error
  = Returned {| type := UNKNOWN_ERROR;
                info_message := m;
                suggestion := js "Please check the logs for more details" |}.
Proof.
  intros Hs Hc Hwhere Hm Ht Hi. unfold handle, handleLocal.
  rewrite Hs, Hc, Hm, Hi. cbn [orElse]. rewrite Ht.
  replace (strictEq (Some (js "ECONNREFUSED")) "ECONNREFUSED") with true by reflexivity.
  replace (strictEq (Some (js "ECONNREFUSED")) "ENOTFOUND") with false by reflexivity.
  replace (strictEq (Some (js "ECONNREFUSED")) "ECONNRESET") with false by reflexivity.
  replace (strictEq (Some (js "ECONNREFUSED")) "ECONNABORTED") with false by reflexivity.
  cbn [andb orb].
  destruct (strictEq (address error) "127.0.0.1") eqn:Ha; [|reflexivity].
  apply strictEq_true in Ha.
  destruct Hwhere as [Hne | [Hp1 Hp2]]; [contradiction|].
  destruct (port error) as [p|]; [|reflexivity].
  destruct (Z.eqb_spec p 11434) as [->|_]; [contradiction|].
  destruct (Z.eqb_spec p 5000) as [->|_]; [contradiction|]. reflexivity.
Qed.

Lemma handle_refused_elsewhere_witness :
  handle refusedElsewhere
  = Returned {| type := UNKNOWN_ERROR;
                info_message := js "connect ECONNREFUSED ::1:11434";
                suggestion := js "Please check the logs for more details" |}.
Proof.
  apply (@handle_refused_elsewhere refusedElsewhere (js "connect ECONNREFUSED ::1:11434"));
    try reflexivity.
  left. discriminate.
Defined.

(** X5: the two presentations show one classification.  When [handle]
    returns, [formatForCLI] is the cross mark and the message on one line
    and the light bulb and the suggestion on the next (the suggestion line
    is never left out), and [formatForAPI] carries the same message, type
    and suggestion; when [handle] throws, both throw the same value. *)
Theorem formatters_agree (error : JsError) :
  match handle error with
  | Returned info =>
      formatForCLI error
      = Returned (utf16 0x274C ++ js " " ++ info_message info
                    ++ newline :: utf16 0x1F4A1 ++ js " " ++ suggestion info)
      /\ formatForAPI error
         = Returned {| api_error := info_message info;
                       api_type := type info;
                       api_suggestion := suggestion info |}
  | Threw e => formatForCLI error = Threw e /\ formatForAPI error = Threw e
  end.
Proof.
  unfold formatForCLI, formatForAPI.
  destruct (handle error) as [info|e] eqn:H; [|split; reflexivity].
  apply handle_classified in H.
  assert (Hs : truthy (suggestion info) = true) by (destruct H; reflexivity).
  rewrite Hs. split; [|reflexivity]. now rewrite <- !app_assoc.
Qed.

(* ===================================================================== *)
(** ** More on the probe and the generator *)
(* ===================================================================== *)

(** X6: [generateReview] always resolves, after one structured request
    and at most one subprocess (never a retry), and its result is either a
    success with a review, the model name and no error, or a failure with
    no review, no model and no method. *)
Theorem generateReview_resolves (this : OllamaLLM) (diffText : jsstring)
    (prContext : PRContext) (w : World) :
  let prompt := buildReviewPrompt diffText prContext in
  let post := AxiosPost (baseURL this ++ js "/api/generate")
                {| req_model := model this; req_prompt := prompt;
                   req_stream := false; req_options := generateOptions |} in
  let exec := ExecAsync (cliCommand this (escapePrompt prompt)) maxBuffer in
  exists r log,
    run (generateReview this diffText prContext) w = (Returned r, log)
    /\ (log = [post] \/ log = [post; exec])
    /\ (success r = true ->
        (exists text, review r = Some text)
        /\ review_model r = Some (model this) /\ error r = None)
    /\ (success r = false ->
        review r = None /\ review_model r = None /\ method r = None).
Proof.
  cbv zeta. rewrite generateReview_run.
  destruct (structuredOutcome this diffText prContext w) as [r|e] eqn:Ho.
  - eexists _, _. split; [reflexivity|]. split; [now left|].
    destruct (structuredOutcome_returned _ _ _ _ Ho)
      as [(rd & text & _ & _ & ->) | (rd & _ & _ & ->)];
      split; intros Hs; try discriminate Hs; repeat split; now eexists.
  - eexists _, _. split; [reflexivity|]. split; [now right|].
    unfold cliResult. destruct (world_exec w _ _) as [out|e'].
    + destruct (truthy (stderr out) && negb (truthy (stdout out)));
        split; intros Hs; try discriminate Hs; repeat split; now eexists.
    + split; intros Hs; try discriminate Hs; repeat split.
Qed.

(** X7: the probe makes exactly one request, to [<baseURL>/api/tags].
    Its result keeps [modelAvailable] false whenever [running] is false,
    and then lists no models.  A rejected request gives [running] false
    with the error's message, and so does a resolved request whose data is
    [undefined] or [null].  A resolved request whose data has a catalog of
    the documented shape ([models] absent or an array of named entries)
    gives [running] true, the names of the catalog in order and no error;
    when [models] is absent or empty, as for the empty body of a response
    without content, [modelAvailable] is false and the list is empty. *)
Theorem checkOllamaStatus_invariant (this : OllamaLLM) (w : World) :
  let url := baseURL this ++ js "/api/tags" in
  exists st,
    run (checkOllamaStatus this) w = (Returned st, [AxiosGet url])
    /\ (modelAvailable st = true -> running st = true)
    /\ (running st = false -> modelAvailable st = false /\ availableModels st = None)
    /\ (forall e, world_get w url = Threw e ->
        running st = false /\ status_error st = message e)
    /\ (world_get w url = Returned None -> running st = false)
    /\ (forall d, world_get w url = Returned (Some d) ->
        running st = true
        /\ availableModels st
           = Some (map name match models d with Some l => l | None => [] end)
        /\ status_error st = None
        /\ (models d = None \/ models d = Some [] ->
            modelAvailable st = false /\ availableModels st = Some [])).
Proof.
  cbv zeta. rewrite checkOllamaStatus_run. eexists. split; [reflexivity|].
  destruct (world_get w _) as [[d|]|e];
    cbn [running modelAvailable availableModels status_error].
  - split; [reflexivity|]. split; [discriminate|].
    split; [intros e H; discriminate H|]. split; [discriminate|].
    intros d' [= <-]. split; [reflexivity|]. split; [reflexivity|].
    split; [reflexivity|]. intros [-> | ->]; split; reflexivity.
  - split; [discriminate|]. split; [now split|].
    split; [intros e H; discriminate H|]. split; [reflexivity|].
    intros d' H; discriminate H.
  - split; [discriminate|]. split; [now split|].
    split; [intros e' [= <-]; now split|]. split; [discriminate|].
    intros d' H; discriminate H.
Qed.

Lemma checkOllamaStatus_invariant_witness :
  (exists st,
      run (checkOllamaStatus localOllama) serviceDown
      = (Returned st, [AxiosGet (js "http://localhost:11434/api/tags")])
      /\ running st = false
      /\ status_error st = Some (js "connect ECONNREFUSED 127.0.0.1:11434"))
  /\ (exists st,
        run (checkOllamaStatus localOllama) emptyCatalogBody
        = (Returned st, [AxiosGet (js "http://localhost:11434/api/tags")])
        /\ running st = true /\ modelAvailable st = false
        /\ availableModels st = Some []).
Proof.
  split.
  - destruct (checkOllamaStatus_invariant localOllama serviceDown)
      as (st & Hrun & _ & _ & Hoff & _).
    exists st. split; [exact Hrun|]. exact (Hoff connectionRefused eq_refl).
  - destruct (checkOllamaStatus_invariant localOllama emptyCatalogBody)
      as (st & Hrun & _ & _ & _ & _ & Hon).
    exists st. split; [exact Hrun|].
    destruct (Hon {| models := None |} eq_refl) as (Hr & _ & _ & Hempty).
    split; [exact Hr|]. apply Hempty. now left.
Defined.

Lemma split_nonempty (sep : N) (s : jsstring) : split sep s <> [].
Proof.
  destruct s as [|c s]; cbn [split]; [discriminate|].
  destruct (c =? sep)%N; [discriminate|].
  destruct (split sep s); discriminate.
Qed.

(** [split] cuts at every separator: the parts are free of it and joining
    them with it gives the string back. *)
Lemma split_join (sep : N) (s : jsstring) :
  join [sep] (split sep s) = s /\ Forall (fun p => ~ In sep p) (split sep s).
Proof.
  induction s as [|c s [IHj IHf]]; cbn [split].
  - split; [reflexivity|]. constructor; [intros []|constructor].
  - pose proof (split_nonempty sep s) as Hn.
    destruct (N.eqb_spec c sep) as [->|Hne].
    + split; [|constructor; [intros []|assumption]].
      destruct (split sep s) as [|p ps]; [congruence|].
      change (join [sep] ([] :: p :: ps)) with (sep :: join [sep] (p :: ps)).
      now rewrite IHj.
    + destruct (split sep s) as [|p ps]; [congruence|].
      inversion IHf as [|? ? Hp Hps]; subst. split.
      * destruct ps as [|q qs]; [reflexivity|].
        change (join [sep] ((c :: p) :: q :: qs))
          with (c :: join [sep] (p :: q :: qs)).
        reflexivity.
      * constructor; [|assumption]. intros [E|Hin]; [congruence|contradiction].
Qed.

(** X8: the base name of a model name is the text before its first
    colon: it contains no colon, the name is the base name followed by
    nothing or by a colon and a tag, and a name without colon is its own
    base name. *)
Theorem baseName_is_text_before_colon (m : jsstring) :
  ~ In colon (baseName m)
  /\ (m = baseName m \/ exists tag, m = baseName m ++ colon :: tag)
  /\ (~ In colon m -> baseName m = m).
Proof.
  destruct (split_join colon m) as [Hj Hf].
  pose proof (split_nonempty colon m) as Hn.
  unfold baseName. destruct (split colon m) as [|p ps]; [congruence|].
  cbn [hd]. pose proof (Forall_inv Hf) as Hp. cbn beta in Hp.
  split; [assumption|].
  assert (Hshape : m = p \/ exists tag, m = p ++ colon :: tag).
  { destruct ps as [|q qs]; cbn [join] in Hj.
    - now left.
    - right. exists (join [colon] (q :: qs)). now rewrite <- Hj. }
  split; [assumption|].
  intros Hno. destruct Hshape as [E | [tag E]]; [now symmetry|].
  exfalso. apply Hno. rewrite E. apply in_or_app. right. now left.
Qed.

Lemma trimStart_split (s : jsstring) :
  exists lead, s = lead ++ trimStart s /\ forallb isWhiteSpace lead = true.
Proof.
  induction s as [|c s (lead & E & Hl)]; [now exists []|].
  cbn [trimStart]. destruct (isWhiteSpace c) eqn:Hc.
  - exists (c :: lead). cbn [app forallb]. rewrite Hc, Hl. now rewrite E at 1.
  - now exists [].
Qed.

Lemma trimStart_head (s : jsstring) (c : N) (rest : jsstring) :
  trimStart s = c :: rest -> isWhiteSpace c = false.
Proof.
  induction s as [|d s IH]; cbn [trimStart]; [discriminate|].
  destruct (isWhiteSpace d) eqn:Hd; [exact IH|]. now intros [= <- _].
Qed.

Lemma trimStart_whitespace (s : jsstring) :
  forallb isWhiteSpace s = true -> trimStart s = [].
Proof.
  induction s as [|c s IH]; [reflexivity|]. cbn [forallb trimStart].
  intros H. apply andb_true_iff in H as [-> Hs]. auto.
Qed.

Lemma trimEnd_split (s : jsstring) :
  exists trail, s = trimEnd s ++ trail /\ forallb isWhiteSpace trail = true.
Proof.
  unfold trimEnd. destruct (trimStart_split (rev s)) as (lead & E & Hl).
  exists (rev lead). split.
  - rewrite <- rev_app_distr, <- E. now rewrite rev_involutive.
  - rewrite forallb_forall in *. intros c Hc. apply Hl. now apply in_rev.
Qed.

Lemma trimEnd_last (s init : jsstring) (c : N) :
  trimEnd s = init ++ [c] -> isWhiteSpace c = false.
Proof.
  unfold trimEnd. intros H.
  apply (f_equal (@rev N)) in H. rewrite rev_involutive, rev_app_distr in H.
  cbn [rev app] in H. exact (trimStart_head _ H).
Qed.

(** What [trim] does: it cuts a whitespace prefix and a whitespace suffix
    and leaves a text that neither begins nor ends with whitespace. *)
Lemma trim_spec (s : jsstring) :
  (exists lead trail,
      s = lead ++ trim s ++ trail
      /\ forallb isWhiteSpace lead = true /\ forallb isWhiteSpace trail = true)
  /\ (forall c rest, trim s = c :: rest -> isWhiteSpace c = false)
  /\ (forall c init, trim s = init ++ [c] -> isWhiteSpace c = false).
Proof.
  unfold trim.
  destruct (trimStart_split s) as (lead & E1 & Hl).
  destruct (trimEnd_split (trimStart s)) as (trail & E2 & Ht).
  split; [|split].
  - exists lead, trail. split; [|now split]. now rewrite <- E2.
  - intros c rest Hc.
    destruct (trimStart s) as [|d t] eqn:Hs.
    + discriminate Hc.
    + pose proof (trimStart_head _ Hs) as Hd.
      rewrite Hc in E2. cbn [app] in E2. injection E2 as -> _. exact Hd.
  - intros c init. apply trimEnd_last.
Qed.

Lemma trim_whitespace (s : jsstring) :
  forallb isWhiteSpace s = true -> trim s = [].
Proof.
  intros H. unfold trim. now rewrite (trimStart_whitespace _ H).
Qed.

(** X9: the review of every successful result is trimmed: it neither
    begins nor ends with a whitespace code unit, on the structured path as
    on the subprocess path. *)
Theorem generateReview_review_trimmed (this : OllamaLLM) (diffText : jsstring)
    (prContext : PRContext) (w : World) (r : ReviewResult) (text : jsstring) :
  fst (run (generateReview this diffText prContext) w) = Returned r ->
  review r = Some text ->
  (forall c rest, text = c :: rest -> isWhiteSpace c = false)
  /\ (forall c init, text = init ++ [c] -> isWhiteSpace c = false).
Proof.
  rewrite generateReview_run. intros Hrun Hrev.
  assert (Ht : exists raw, text = trim raw).
  { destruct (structuredOutcome this diffText prContext w) as [r0|e] eqn:Ho;
      cbn [fst] in Hrun; injection Hrun as <-.
    - destruct (structuredOutcome_returned _ _ _ _ Ho)
        as [(rd & raw & _ & _ & ->) | (rd & _ & _ & ->)]; [|discriminate Hrev].
      injection Hrev as <-. now eexists.
    - unfold cliResult in Hrev. destruct (world_exec w _ _) as [out|e'];
        [|discriminate Hrev].
      destruct (truthy (stderr out) && negb (truthy (stdout out)));
        [discriminate Hrev|].
      injection Hrev as <-. now eexists. }
  destruct Ht as [raw ->]. apply trim_spec.
Qed.

Lemma generateReview_review_trimmed_witness :
  isWhiteSpace 76%N = false /\ isWhiteSpace 46%N = false.
Proof.
  destruct (@generateReview_review_trimmed localOllama (js "+x") noContext apiAnswers
              {| success := true; review := Some (js "Looks good.");
                 review_model := Some (js "gemma:2b"); method := None; error := None |}
              (js "Looks good.") eq_refl eq_refl) as [Hfirst Hlast].
  split.
  - exact (Hfirst 76%N (js "ooks good.") eq_refl).
  - exact (Hlast 46%N (js "Looks good") eq_refl).
Defined.

(** X10: output that consists of whitespace only still counts as a
    success, with an empty review: on the structured path when the
    [response] field is non-empty but all whitespace, and on the
    subprocess path when standard output is non-empty but all whitespace
    (whatever standard error holds). *)
Theorem generateReview_whitespace_output (this : OllamaLLM) (diffText : jsstring)
    (prContext : PRContext) (w : World) (blank : jsstring) :
  let prompt := buildReviewPrompt diffText prContext in
  let url := baseURL this ++ js "/api/generate" in
  let request := {| req_model := model this; req_prompt := prompt;
                    req_stream := false; req_options := generateOptions |} in
  let command := cliCommand this (escapePrompt prompt) in
  blank <> [] -> forallb isWhiteSpace blank = true ->
  (world_post w url request
   = Returned (Some {| response_field := Some (TextValue blank) |}) ->
   fst (run (generateReview this diffText prContext) w)
   = Returned {| success := true; review := Some [];
                 review_model := Some (model this); method := None; error := None |})
  /\ (forall e errors,
        world_post w url request = Threw e ->
        world_exec w command maxBuffer = Returned {| stdout := blank; stderr := errors |} ->
        fst (run (generateReview this diffText prContext) w)
        = Returned {| success := true; review := Some [];
                      review_model := Some (model this);
                      method := Some (js "CLI"); error := None |}).
Proof.
  cbv zeta. intros Hne Hws. rewrite generateReview_run.
  assert (Ht : truthy blank = true) by (destruct blank; [congruence|reflexivity]).
  split.
  - intros Hpost. unfold structuredOutcome. cbv zeta. rewrite Hpost.
    cbn [generatedValue response_field truthyValue fst]. rewrite Ht.
    now rewrite (trim_whitespace _ Hws).
  - intros e errors Hpost Hexec. unfold structuredOutcome. cbv zeta. rewrite Hpost.
    cbn [fst]. unfold cliResult. rewrite Hexec.
    cbn [stdout stderr]. rewrite Ht, andb_false_r.
    now rewrite (trim_whitespace _ Hws).
Qed.

Lemma generateReview_whitespace_output_witness :
  fst (run (generateReview localOllama (js "+x") noContext)
         (worldOf [] (Returned (Some {| response_field := Some (TextValue (js "  ")) |}))
            (Returned lgtm)))
  = Returned {| success := true; review := Some [];
                review_model := Some (js "gemma:2b"); method := None; error := None |}.
Proof.
  refine (proj1 (@generateReview_whitespace_output localOllama (js "+x") noContext
                   (worldOf [] (Returned (Some {| response_field := Some (TextValue (js "  ")) |}))
                      (Returned lgtm))
                   (js "  ") _ _) _);
    [discriminate|reflexivity|reflexivity].
Defined.

(** X11: what of the diff reaches the prompt.  For one context, two
    diffs give the same prompt exactly when they are equal or both exceed
    8000 code units and agree on their first 8000: nothing of a diff up to
    the bound is lost, and nothing beyond the bound has any influence. *)
Theorem buildReviewPrompt_same_prompt (diff1 diff2 : jsstring) (prContext : PRContext) :
  buildReviewPrompt diff1 prContext = buildReviewPrompt diff2 prContext
  <-> diff1 = diff2
      \/ (truncationBound < length diff1 /\ truncationBound < length diff2
          /\ firstn truncationBound diff1 = firstn truncationBound diff2).
Proof.
  rewrite !buildReviewPrompt_split. split.
  - intros H. apply app_inv_head, app_inv_tail in H.
    destruct (Nat.le_gt_cases (length diff1) truncationBound) as [H1|H1];
      destruct (Nat.le_gt_cases (length diff2) truncationBound) as [H2|H2].
    + left. now rewrite !embeddedDiff_short in H.
    + exfalso. rewrite embeddedDiff_short, embeddedDiff_long in H by assumption.
      apply (f_equal (@length N)) in H.
      rewrite length_app, length_firstn in H. cbn [length] in H. lia.
    + exfalso. rewrite embeddedDiff_long, embeddedDiff_short in H by assumption.
      apply (f_equal (@length N)) in H.
      rewrite length_app, length_firstn in H. cbn [length] in H. lia.
    + right. rewrite !embeddedDiff_long in H by assumption.
      apply app_inv_tail in H. auto.
  - intros [-> | (H1 & H2 & E)]; [reflexivity|].
    rewrite !embeddedDiff_long by assumption. now rewrite E.
Qed.

Lemma escapePrompt_cons (c : N) (p : jsstring) :
  escapePrompt (c :: p) = escapeUnit c ++ escapePrompt p.
Proof. now rewrite !escapePrompt_unitwise. Qed.

(** X12: in the escaped prompt every double quote and every backtick
    stands right after a backslash, and the escaped prompt is longer than
    the prompt by exactly the number of double quotes and backticks in
    it. *)
Theorem escapePrompt_quotes_escaped (prompt : jsstring) :
  (forall pre c post,
      escapePrompt prompt = pre ++ c :: post ->
      c = dquote \/ c = backtick ->
      exists pre', pre = pre' ++ [backslash])
  /\ length (escapePrompt prompt)
     = length prompt + length (filter isQuoteOrBacktick prompt).
Proof.
  split.
  - induction prompt as [|x p IH]; intros pre c post H Hc.
    + destruct pre; discriminate H.
    + rewrite escapePrompt_cons in H. unfold escapeUnit in H.
      destruct ((x =? dquote)%N || (x =? backtick)%N) eqn:Hx.
      * destruct pre as [|a [|b pre]]; cbn [app] in H.
        -- injection H as <- _. destruct Hc as [Hc|Hc]; discriminate Hc.
        -- injection H as <- _ _. now exists [].
        -- injection H as <- <- H. destruct (IH _ _ _ H Hc) as [pre' ->].
           now exists (backslash :: x :: pre').
      * destruct pre as [|a pre]; cbn [app] in H.
        -- injection H as <- _. exfalso.
           destruct Hc as [-> | ->]; discriminate Hx.
        -- injection H as <- H. destruct (IH _ _ _ H Hc) as [pre' ->].
           now exists (x :: pre').
  - induction prompt as [|x p IH]; [reflexivity|].
    rewrite escapePrompt_cons, length_app, IH. cbn [filter length].
    unfold escapeUnit, isQuoteOrBacktick.
    destruct ((x =? dquote)%N || (x =? backtick)%N); cbn [length]; lia.
Qed.

Lemma escapePrompt_quotes_escaped_witness :
  exists pre', [97; backslash]%N = pre' ++ [backslash].
Proof.
  apply (proj1 (escapePrompt_quotes_escaped [97; dquote; 98]%N)
           [97; backslash]%N dquote [98]%N); [reflexivity|now left].
Defined.

(* ===================================================================== *)
(** ** Language detection and pattern analysis *)
(* ===================================================================== *)

Lemma split_app_sep (sep : N) (a b : jsstring) :
  split sep (a ++ sep :: b) = split sep a ++ split sep b.
Proof.
  induction a as [|c a IH]; cbn [app split].
  - now rewrite N.eqb_refl.
  - rewrite IH. destruct (c =? sep)%N; [reflexivity|].
    pose proof (split_nonempty sep a) as Hn.
    destruct (split sep a) as [|p ps]; [congruence|reflexivity].
Qed.

Lemma split_no_sep (sep : N) (s : jsstring) : ~ In sep s -> split sep s = [s].
Proof.
  induction s as [|c s IH]; [reflexivity|]. intros Hno. cbn [split].
  destruct (N.eqb_spec c sep) as [->|_]; [exfalso; apply Hno; now left|].
  rewrite IH; [reflexivity|]. intros Hin; apply Hno; now right.
Qed.

Lemma last_split_app (sep : N) (a b : jsstring) :
  last (split sep (a ++ sep :: b)) [] = last (split sep b) [].
Proof.
  rewrite split_app_sep.
  pose proof (split_nonempty sep b) as Hn.
  destruct (split sep b) as [|p ps] using rev_ind; [congruence|].
  now rewrite app_assoc, !last_last.
Qed.

Lemma asciiLower_dot (c : N) : asciiLower c = dot -> c = dot.
Proof.
  unfold asciiLower, dot.
  destruct (N.leb_spec 65 c); destruct (N.leb_spec c 90); cbn [andb]; lia.
Qed.

Lemma lowerAscii_no_dot (s : jsstring) : ~ In dot (lowerAscii s) -> ~ In dot s.
Proof.
  intros H Hin. apply H. unfold lowerAscii. apply in_map_iff.
  exists dot. split; [reflexivity|assumption].
Qed.

Section LanguageFacts.

Variable toLowerCase : jsstring -> jsstring.

(** On a string of ASCII code units the engine's lower-casing only maps
    A-Z to a-z. *)
Hypothesis toLowerCase_ascii : forall s, isAscii s -> toLowerCase s = lowerAscii s.

Lemma detectLanguage_after_dot (stem rest : jsstring) :
  detectLanguage toLowerCase (stem ++ dot :: rest) = detectLanguage toLowerCase rest.
Proof. unfold detectLanguage. now rewrite last_split_app. Qed.

Lemma detectLanguage_no_dot (name : jsstring) :
  ~ In dot name ->
  detectLanguage toLowerCase name
  = match languageMapGet (toLowerCase name) with
    | Some language => language
    | None => LanguageName (js "Unknown")
    end.
Proof. intros H. unfold detectLanguage. now rewrite split_no_sep. Qed.

Lemma detectLanguage_ascii_extension (stem ext key : jsstring) :
  isAscii ext -> lowerAscii ext = key -> ~ In dot key ->
  detectLanguage toLowerCase (stem ++ dot :: ext)
  = match languageMapGet key with
    | Some language => language
    | None => LanguageName (js "Unknown")
    end.
Proof.
  intros Ha <- Hno. rewrite detectLanguage_after_dot.
  rewrite detectLanguage_no_dot by now apply lowerAscii_no_dot.
  now rewrite toLowerCase_ascii.
Qed.

End LanguageFacts.

(** X13: [detectLanguage] looks only at the text after the last dot of
    the file name, whatever precedes it; a name without any dot is taken as
    an extension as a whole (so a file named [go] or [C] counts as Go or
    C source). *)
Theorem detectLanguage_last_segment (toLowerCase : jsstring -> jsstring) :
  (forall stem rest,
      detectLanguage toLowerCase (stem ++ dot :: rest)
      = detectLanguage toLowerCase rest)
  /\ (forall name,
        ~ In dot name ->
        detectLanguage toLowerCase name
        = match languageMapGet (toLowerCase name) with
          | Some language => language
          | None => LanguageName (js "Unknown")
          end).
Proof.
  split; [apply detectLanguage_after_dot | apply detectLanguage_no_dot].
Qed.

Lemma detectLanguage_last_segment_witness :
  detectLanguage lowerAscii (js "C") = LanguageName (js "C")
  /\ detectLanguage lowerAscii (js "src/v1.2/main.go") = LanguageName (js "Go").
Proof.
  split.
  - rewrite (proj2 (detectLanguage_last_segment lowerAscii) (js "C")); [reflexivity|].
    vm_compute. intuition discriminate.
  - change (js "src/v1.2/main.go") with (js "src/v1.2/main" ++ dot :: js "go").
    rewrite (proj1 (detectLanguage_last_segment lowerAscii)). reflexivity.
Defined.

(** X14: the language table is matched without regard to letter case.
    For every entry of the table and every ASCII extension that is the
    entry's key up to the case of its letters, a file name ending in a dot
    and that extension is given the entry's language. *)
Theorem detectLanguage_table (toLowerCase : jsstring -> jsstring)
    (stem ext : jsstring) (key language : string) :
  (forall s, isAscii s -> toLowerCase s = lowerAscii s) ->
  In (key, language) languageMap ->
  isAscii ext -> lowerAscii ext = js key ->
  detectLanguage toLowerCase (stem ++ dot :: ext) = LanguageName (js language).
Proof.
  intros Hlow Hin Ha He.
  assert (Hkey : ~ In dot (js key)
                 /\ languageMapGet (js key) = Some (LanguageName (js language))).
  { unfold languageMap in Hin. cbn [In] in Hin.
    repeat (destruct Hin as [[= <- <-] | Hin];
            [split; [vm_compute; intuition discriminate | reflexivity]|]).
    contradiction. }
  destruct Hkey as [Hno Hget].
  rewrite (@detectLanguage_ascii_extension toLowerCase Hlow stem ext (js key) Ha He Hno).
  now rewrite Hget.
Qed.

Lemma detectLanguage_table_witness :
  detectLanguage lowerAscii (js "src/App.TSX") = LanguageName (js "React TSX").
Proof.
  change (js "src/App.TSX") with (js "src/App" ++ dot :: js "TSX").
  apply (@detectLanguage_table lowerAscii (js "src/App") (js "TSX") "tsx" "React TSX").
  - reflexivity.
  - vm_compute. tauto.
  - vm_compute. repeat constructor.
  - reflexivity.
Defined.

Lemma jsEqb_eq (a b : jsstring) : jsEqb a b = true <-> a = b.
Proof.
  unfold jsEqb. destruct (list_eq_dec N.eq_dec a b); split; trivial;
    try discriminate; contradiction.
Qed.

(** X15: what [detectLanguage] falls back to.  Its value is always the
    language of a table entry, the string "Unknown", or, when the
    lower-cased extension is a property name of [Object.prototype], that
    inherited property instead of a string: an ASCII extension that
    lower-cases to [constructor] or [__proto__] does not give "Unknown".
    A name that is empty or ends in a dot gives "Unknown". *)
Theorem detectLanguage_fallbacks (toLowerCase : jsstring -> jsstring) :
  (forall s, isAscii s -> toLowerCase s = lowerAscii s) ->
  (forall filename,
      (exists key language,
          In (key, language) languageMap
          /\ detectLanguage toLowerCase filename = LanguageName (js language))
      \/ detectLanguage toLowerCase filename = LanguageName (js "Unknown")
      \/ (exists key,
             In key objectPrototypeKeys
             /\ detectLanguage toLowerCase filename = InheritedProperty (js key)))
  /\ (forall stem ext,
        isAscii ext ->
        lowerAscii ext = js "constructor" \/ lowerAscii ext = js "__proto__" ->
        detectLanguage toLowerCase (stem ++ dot :: ext)
        = InheritedProperty (lowerAscii ext))
  /\ detectLanguage toLowerCase [] = LanguageName (js "Unknown")
  /\ (forall stem,
        detectLanguage toLowerCase (stem ++ [dot]) = LanguageName (js "Unknown")).
Proof.
  intros Hlow. split; [|split; [|split]].
  - intros filename. unfold detectLanguage, languageMapGet.
    destruct (find _ languageMap) as [[key language]|] eqn:Hf.
    + left. exists key, language. split; [|reflexivity].
      exact (proj1 (find_some _ _ Hf)).
    + destruct (existsb _ objectPrototypeKeys) eqn:He; [|now right; left].
      right; right. apply existsb_exists in He as (key & Hin & Heq).
      apply jsEqb_eq in Heq. exists key. now rewrite Heq.
  - intros stem ext Ha Hk.
    assert (Hno : ~ In dot (lowerAscii ext))
      by (destruct Hk as [-> | ->]; vm_compute; intuition discriminate).
    rewrite (@detectLanguage_ascii_extension toLowerCase Hlow stem ext
               (lowerAscii ext) Ha eq_refl Hno).
    destruct Hk as [-> | ->]; reflexivity.
  - unfold detectLanguage. cbn [split last].
    rewrite (Hlow [] (Forall_nil _)). reflexivity.
  - intros stem. rewrite detectLanguage_after_dot.
    unfold detectLanguage. cbn [split last].
    rewrite (Hlow [] (Forall_nil _)). reflexivity.
Qed.

Lemma detectLanguage_fallbacks_witness :
  detectLanguage lowerAscii (js "lib/Base.Constructor")
  = InheritedProperty (js "constructor").
Proof.
  change (js "lib/Base.Constructor") with (js "lib/Base" ++ dot :: js "Constructor").
  refine (proj1 (proj2 (@detectLanguage_fallbacks lowerAscii (fun s _ => eq_refl)))
            (js "lib/Base") (js "Constructor") _ _).
  - vm_compute. repeat constructor.
  - left. reflexivity.
Defined.

Section PatternAnalysis.

Variable toLowerCase : jsstring -> jsstring.
Variable stringify : list Pattern -> jsstring.
Variable this : OllamaLLM.
Variable w : World.

(** Mapping stops at the first file without a name. *)
Lemma mapFiles_outcome (files : list FileChange) :
  (forall file, In file files -> filename file <> None) ->
  exists patterns,
    mapFiles toLowerCase files = Returned patterns
    /\ map pattern_filename patterns
       = map (fun file => orDefault [] (filename file)) files.
Proof.
  induction files as [|file rest IH]; intros Hall.
  - now exists [].
  - destruct IH as (ps & Hps & Hnames).
    { intros f Hin. apply Hall. now right. }
    cbn [mapFiles]. unfold toPattern.
    destruct (filename file) as [name|] eqn:Hn.
    + rewrite Hps. eexists. split; [reflexivity|].
      cbn [map pattern_filename orDefault]. rewrite Hn. cbn [orDefault]. now rewrite Hnames.
    + exfalso. apply (Hall file); [now left|assumption].
Qed.

Lemma mapFiles_throws (files : list FileChange) (file : FileChange) :
  In file files -> filename file = None ->
  mapFiles toLowerCase files = Threw (TypeError "split").
Proof.
  induction files as [|f rest IH]; intros Hin Hn; [contradiction|].
  cbn [mapFiles]. unfold toPattern.
  destruct (filename f) as [name|] eqn:Hf.
  - destruct Hin as [-> | Hin]; [congruence|]. now rewrite (IH Hin Hn).
  - reflexivity.
Qed.

Lemma analyzeCodePatterns_run (files : list FileChange) :
  run (analyzeCodePatterns toLowerCase stringify this files) w
  = match mapFiles toLowerCase files with
    | Returned patterns =>
        run (generateReview this (analysisPrompt stringify patterns) emptyContext) w
    | Threw e => (Returned (failure (message e)), [])
    end.
Proof.
  unfold run, analyzeCodePatterns, tryCatch.
  destruct (mapFiles toLowerCase files) as [patterns|e]; [|reflexivity].
  pose proof (generateReview_run this (analysisPrompt stringify patterns) emptyContext w) as H.
  unfold run in H. rewrite H.
  destruct (structuredOutcome this _ emptyContext w); reflexivity.
Qed.

End PatternAnalysis.

(** X16: when some file of the list has no [filename],
    [analyzeCodePatterns] resolves to a failure carrying the TypeError's
    message, without any request to the inference service and without a
    subprocess. *)
Theorem analyzeCodePatterns_missing_filename (toLowerCase : jsstring -> jsstring)
    (stringify : list Pattern -> jsstring) (this : OllamaLLM) (w : World)
    (files : list FileChange) (file : FileChange) :
  In file files -> filename file = None ->
  run (analyzeCodePatterns toLowerCase stringify this files) w
  = (Returned (failure (Some (js "Cannot read properties of undefined (reading 'split')"))),
     []).
Proof.
  intros Hin Hn. rewrite analyzeCodePatterns_run.
  now rewrite (mapFiles_throws toLowerCase files file Hin Hn).
Qed.

Lemma analyzeCodePatterns_missing_filename_witness :
  run (analyzeCodePatterns lowerAscii sampleStringify localOllama
         [ {| filename := Some (js "a.js"); changes := Some 3%Z;
              additions := Some 2%Z; deletions := Some 1%Z |};
           {| filename := None; changes := None; additions := None; deletions := None |} ])
    apiAnswers
  = (Returned (failure (Some (js "Cannot read properties of undefined (reading 'split')"))),
     []).
Proof.
  apply (@analyzeCodePatterns_missing_filename lowerAscii sampleStringify localOllama
           apiAnswers _
           {| filename := None; changes := None; additions := None; deletions := None |});
    [right; left; reflexivity | reflexivity].
Defined.

(** X17: when every file has a name, [analyzeCodePatterns] is
    [generateReview] run on the analysis text as if it were a diff, with an
    empty context, one pattern per file in order.  The analysis text is
    therefore cut like a diff: as soon as the heading and the serialized
    patterns reach 8000 code units together, the whole "Focus on" list and
    the closing request are dropped from the prompt and replaced by the
    truncation marker; up to 8000 code units in all, the text is embedded
    whole. *)
Theorem analyzeCodePatterns_as_review (toLowerCase : jsstring -> jsstring)
    (stringify : list Pattern -> jsstring) (this : OllamaLLM) (w : World)
    (files : list FileChange) :
  (forall file, In file files -> filename file <> None) ->
  exists patterns,
    mapFiles toLowerCase files = Returned patterns
    /\ map pattern_filename patterns
       = map (fun file => orDefault [] (filename file)) files
    /\ run (analyzeCodePatterns toLowerCase stringify this files) w
       = run (generateReview this (analysisPrompt stringify patterns) emptyContext) w
    /\ (truncationBound <= length (analysisHeader ++ stringify patterns) ->
        buildReviewPrompt (analysisPrompt stringify patterns) emptyContext
        = promptBefore emptyContext
            ++ (firstn truncationBound (analysisHeader ++ stringify patterns)
                  ++ newline :: js "... (truncated)")
            ++ promptAfter)
    /\ (length (analysisPrompt stringify patterns) <= truncationBound ->
        buildReviewPrompt (analysisPrompt stringify patterns) emptyContext
        = promptBefore emptyContext
            ++ (analysisHeader ++ stringify patterns ++ analysisFooter)
            ++ promptAfter).
Proof.
  intros Hall. destruct (mapFiles_outcome toLowerCase files Hall) as (ps & Hps & Hnames).
  exists ps. split; [assumption|]. split; [assumption|].
  split; [now rewrite analyzeCodePatterns_run, Hps|].
  rewrite buildReviewPrompt_split. split.
  - intros Hlen. rewrite embeddedDiff_long.
    + unfold analysisPrompt.
      rewrite (app_assoc analysisHeader), firstn_app.
      replace (truncationBound - length (analysisHeader ++ stringify ps)) with 0 by lia.
      now rewrite firstn_O, app_nil_r.
    + unfold analysisPrompt. rewrite app_assoc, length_app.
      assert (0 < length analysisFooter) by (vm_compute; lia). lia.
  - intros Hlen. now rewrite embeddedDiff_short.
Qed.

Lemma analyzeCodePatterns_as_review_witness :
  exists patterns,
    mapFiles lowerAscii [ {| filename := Some (js "a.js"); changes := Some 3%Z;
                             additions := Some 2%Z; deletions := Some 1%Z |} ]
    = Returned patterns
    /\ map pattern_filename patterns = [js "a.js"].
Proof.
  destruct (@analyzeCodePatterns_as_review lowerAscii sampleStringify localOllama apiAnswers
              [ {| filename := Some (js "a.js"); changes := Some 3%Z;
                   additions := Some 2%Z; deletions := Some 1%Z |} ])
    as (ps & Hps & Hnames & _).
  - intros file [<- | []]. discriminate.
  - exists ps. split; [exact Hps | exact Hnames].
Defined.

(* ===================================================================== *)
(** ** The callers *)
(* ===================================================================== *)

Section Route.

Variable ollamaLLM : OllamaLLM.
Variable w : World.

Let tagsURL := baseURL ollamaLLM ++ js "/api/tags".

(** The generator only appends to the log it is started with. *)
Lemma generateReview_from (diffText : jsstring) (prContext : PRContext)
    (log : list Event) :
  generateReview ollamaLLM diffText prContext w log
  = (fst (run (generateReview ollamaLLM diffText prContext) w),
     log ++ snd (run (generateReview ollamaLLM diffText prContext) w)).
Proof.
  rewrite generateReview_run.
  unfold generateReview, tryCatch. rewrite structuredPath_run.
  destruct (structuredOutcome ollamaLLM diffText prContext w) as [r|e]; [reflexivity|].
  rewrite generateReviewCLI_run. cbn [fst snd]. now rewrite <- app_assoc.
Qed.

Lemma checkOllamaStatus_from_start :
  checkOllamaStatus ollamaLLM w []
  = (fst (run (checkOllamaStatus ollamaLLM) w), [AxiosGet tagsURL]).
Proof.
  change (checkOllamaStatus ollamaLLM w []) with (run (checkOllamaStatus ollamaLLM) w).
  now rewrite checkOllamaStatus_run.
Qed.

Variable req : AnalyzeRequest.
Variable prData : option PullRequestData.
Variable diff : jsstring.
Variable filesResult : option (list FileChange).

Hypothesis req_complete :
  falsyString (body_owner req) || falsyString (body_repo req)
  || falsyNumber (body_prNumber req) = false.

(** The route up to the probe, for a complete request whose pull request
    and diff were fetched. *)
Lemma analyzePr_probed :
  run (analyzePr ollamaLLM req (Returned prData) (DiffOk diff) filesResult) w
  = let st := match fst (run (checkOllamaStatus ollamaLLM) w) with
              | Returned st => st
              | Threw _ => {| running := false; modelAvailable := false;
                              availableModels := None; status_error := None |}
              end in
    if negb (running st) then
      (Returned {| http_status := 503;
                   http_body := ErrorBody
                     (Some (js "Ollama is not running. Please start Ollama service."))
                     (Some (js "Run: ollama serve")) None |},
       [AxiosGet tagsURL])
    else if negb (modelAvailable st) then
      (Returned {| http_status := 503;
                   http_body := ErrorBody
                     (Some (js "Model " ++ model ollamaLLM ++ js " is not available."))
                     (Some (js "Run: ollama pull " ++ model ollamaLLM))
                     (availableModels st) |},
       [AxiosGet tagsURL])
    else
      match prData with
      | None =>
          (Returned {| http_status := 500;
                       http_body := ErrorBody
                         (Some (js "Failed to analyze pull request")) None None |},
           [AxiosGet tagsURL])
      | Some pr =>
          match pr_user pr with
          | None =>
              (Returned {| http_status := 500;
                           http_body := ErrorBody
                             (Some (js "Failed to analyze pull request")) None None |},
               [AxiosGet tagsURL])
          | Some user =>
              let prContext :=
                {| title := pr_title pr;
                   description := Some (orElse (pr_body pr) []);
                   author := login user |} in
              let generated := run (generateReview ollamaLLM diff prContext) w in
              match fst generated with
              | Returned reviewResult =>
                  (Returned
                     (if negb (success reviewResult) then
                        {| http_status := 500;
                           http_body := ErrorBody
                             (Some (js "AI analysis failed: "
                                      ++ orDefault (js "undefined") (error reviewResult)))
                             None None |}
                      else
                        {| http_status := 200;
                           http_body := AnalysisBody
                             (pr_title pr) (login user) (pr_html_url pr)
                             (match filesResult with
                              | Some files => length files
                              | None => 0
                              end)
                             (review reviewResult) (review_model reviewResult)
                             (reportedMethod reviewResult) |}),
                   AxiosGet tagsURL :: snd generated)
              | Threw _ =>
                  (Returned {| http_status := 500;
                               http_body := ErrorBody
                                 (Some (js "Failed to analyze pull request")) None None |},
                   AxiosGet tagsURL :: snd generated)
              end
          end
      end.
Proof.
  unfold run at 1. unfold analyzePr, tryCatch, bind, await.
  rewrite req_complete, checkOllamaStatus_from_start.
  rewrite checkOllamaStatus_run. cbn [fst]. cbv zeta.
  match goal with
  | |- context [running ?s] => destruct (negb (running s)); [reflexivity|];
                               destruct (negb (modelAvailable s)); [reflexivity|]
  end.
  destruct prData as [pr|]; [|reflexivity].
  destruct (pr_user pr) as [user|]; [|reflexivity].
  rewrite generateReview_from.
  destruct (fst (run (generateReview ollamaLLM diff _) w)) as [r|e]; cbn [app];
    [|reflexivity].
  destruct (negb (success r)); reflexivity.
Qed.

End Route.

(** X18: the probe gates the generator.  For a complete request whose
    pull request and diff were fetched: when the catalog request is
    rejected, or resolves with data [undefined] or [null], the route
    answers 503 "Ollama is not running"; when it resolves and no listed
    model name contains the configured base name, the route answers 503
    "Model ... is not available" with the listed names, which is also
    the answer for a catalog without [models], such as the empty body of a
    response without content.  In all these cases the catalog request is
    the only call made: no generation request and no subprocess. *)
Theorem analyzePr_gated (ollamaLLM : OllamaLLM) (w : World) (req : AnalyzeRequest)
    (prData : option PullRequestData) (diff : jsstring)
    (filesResult : option (list FileChange)) :
  let url := baseURL ollamaLLM ++ js "/api/tags" in
  let notRunning :=
    {| http_status := 503;
       http_body := ErrorBody
         (Some (js "Ollama is not running. Please start Ollama service."))
         (Some (js "Run: ollama serve")) None |} in
  let notAvailable names :=
    {| http_status := 503;
       http_body := ErrorBody
         (Some (js "Model " ++ model ollamaLLM ++ js " is not available."))
         (Some (js "Run: ollama pull " ++ model ollamaLLM))
         (Some names) |} in
  falsyString (body_owner req) || falsyString (body_repo req)
  || falsyNumber (body_prNumber req) = false ->
  (forall e, world_get w url = Threw e ->
     run (analyzePr ollamaLLM req (Returned prData) (DiffOk diff) filesResult) w
     = (Returned notRunning, [AxiosGet url]))
  /\ (world_get w url = Returned None ->
      run (analyzePr ollamaLLM req (Returned prData) (DiffOk diff) filesResult) w
      = (Returned notRunning, [AxiosGet url]))
  /\ (forall d,
        world_get w url = Returned (Some d) ->
        let catalog := match models d with Some l => l | None => [] end in
        (forall m, In m catalog ->
                   includes (name m) (baseName (model ollamaLLM)) = false) ->
        run (analyzePr ollamaLLM req (Returned prData) (DiffOk diff) filesResult) w
        = (Returned (notAvailable (map name catalog)), [AxiosGet url]))
  /\ (forall d,
        world_get w url = Returned (Some d) -> models d = None ->
        run (analyzePr ollamaLLM req (Returned prData) (DiffOk diff) filesResult) w
        = (Returned (notAvailable []), [AxiosGet url])).
Proof.
  cbv zeta. intros Hreq. rewrite (analyzePr_probed _ _ _ _ _ _ Hreq).
  rewrite checkOllamaStatus_run. cbv zeta. split; [|split; [|split]].
  - intros e ->. reflexivity.
  - intros ->. reflexivity.
  - intros d -> Hno. cbn [fst running modelAvailable availableModels negb].
    replace (existsb _ _) with false; [reflexivity|].
    symmetry. apply not_true_is_false. intros He.
    apply existsb_exists in He as (m & Hin & Hm). rewrite (Hno m Hin) in Hm.
    discriminate.
  - intros d -> ->. reflexivity.
Qed.

Lemma analyzePr_gated_witness :
  run (analyzePr localOllama sampleRequest (Returned (Some samplePullRequest))
         (DiffOk (js "+x")) None) serviceDown
  = (Returned {| http_status := 503;
                 http_body := ErrorBody
                   (Some (js "Ollama is not running. Please start Ollama service."))
                   (Some (js "Run: ollama serve")) None |},
     [AxiosGet (js "http://localhost:11434/api/tags")])
  /\ run (analyzePr localOllama sampleRequest (Returned (Some samplePullRequest))
            (DiffOk (js "+x")) None) emptyCatalogBody
     = (Returned {| http_status := 503;
                    http_body := ErrorBody
                      (Some (js "Model gemma:2b is not available."))
                      (Some (js "Run: ollama pull gemma:2b"))
                      (Some []) |},
        [AxiosGet (js "http://localhost:11434/api/tags")]).
Proof.
  split.
  - exact (proj1 (@analyzePr_gated localOllama serviceDown sampleRequest
                    (Some samplePullRequest) (js "+x") None eq_refl)
             connectionRefused eq_refl).
  - exact (proj2 (proj2 (proj2 (@analyzePr_gated localOllama emptyCatalogBody sampleRequest
                                  (Some samplePullRequest) (js "+x") None eq_refl)))
             {| models := None |} eq_refl eq_refl).
Defined.

Lemma analyzePr_incomplete (ollamaLLM : OllamaLLM) (w : World) (req : AnalyzeRequest)
    (prResponse : Outcome (option PullRequestData)) (diffResult : DiffResult)
    (filesResult : option (list FileChange)) :
  falsyString (body_owner req) || falsyString (body_repo req)
  || falsyNumber (body_prNumber req) = true ->
  run (analyzePr ollamaLLM req prResponse diffResult filesResult) w
  = (Returned {| http_status := 400;
                 http_body := ErrorBody
                   (Some (js "Missing required parameters: owner, repo, prNumber"))
                   None None |}, []).
Proof.
  unfold run, analyzePr, tryCatch, bind, await. intros ->. reflexivity.
Qed.

(** X19: the route's early exits call nothing.  A request with an owner,
    repository or pull-request number that is missing, empty or zero is
    answered 400; a failed fetch of the pull request is answered 500
    "Failed to analyze pull request"; a failed fetch of the diff is
    answered 500 with the fetch error; in all three cases neither the
    probe nor the generator is called. *)
Theorem analyzePr_early_exits (ollamaLLM : OllamaLLM) (w : World) (req : AnalyzeRequest)
    (prResponse : Outcome (option PullRequestData)) (diffResult : DiffResult)
    (filesResult : option (list FileChange)) :
  (falsyString (body_owner req) || falsyString (body_repo req)
   || falsyNumber (body_prNumber req) = true ->
   run (analyzePr ollamaLLM req prResponse diffResult filesResult) w
   = (Returned {| http_status := 400;
                  http_body := ErrorBody
                    (Some (js "Missing required parameters: owner, repo, prNumber"))
                    None None |}, []))
  /\ (falsyString (body_owner req) || falsyString (body_repo req)
      || falsyNumber (body_prNumber req) = false ->
      (forall e, prResponse = Threw e ->
         run (analyzePr ollamaLLM req prResponse diffResult filesResult) w
         = (Returned {| http_status := 500;
                        http_body := ErrorBody
                          (Some (js "Failed to analyze pull request")) None None |}, []))
      /\ (forall prData error,
            prResponse = Returned prData -> diffResult = DiffFailed error ->
            run (analyzePr ollamaLLM req prResponse diffResult filesResult) w
            = (Returned {| http_status := 500; http_body := ErrorBody error None None |},
               []))).
Proof.
  unfold run, analyzePr, tryCatch, bind, await. split.
  - intros ->. reflexivity.
  - intros ->. split.
    + intros e ->. reflexivity.
    + intros prData error -> ->. reflexivity.
Qed.

Lemma analyzePr_early_exits_witness :
  run (analyzePr localOllama
         {| body_owner := Some (js "o"); body_repo := Some []; body_prNumber := Some 7%Z |}
         (Returned (Some samplePullRequest)) (DiffOk (js "+x")) None) apiAnswers
  = (Returned {| http_status := 400;
                 http_body := ErrorBody
                   (Some (js "Missing required parameters: owner, repo, prNumber"))
                   None None |}, []).
Proof.
  apply (@analyzePr_early_exits localOllama apiAnswers
           {| body_owner := Some (js "o"); body_repo := Some [];
              body_prNumber := Some 7%Z |}
           (Returned (Some samplePullRequest)) (DiffOk (js "+x")) None).
  reflexivity.
Defined.

Ltac route_leaf :=
  eexists _, _; split; [reflexivity|];
  cbn [http_status http_body existsb isGeneration orb];
  split; [cbn [In]; tauto|];
  split; [intros; try discriminate; tauto|];
  intros; try discriminate.

(** X20: the route always answers, with status 200, 400, 500 or 503.
    The generator is called only for answers 200 and 500 (never for 400 or
    503), and an answer 200 follows a probe and a generation attempt and
    carries a review, the configured model and the method ["API"] or
    ["CLI"]. *)
Theorem analyzePr_responds (ollamaLLM : OllamaLLM) (w : World) (req : AnalyzeRequest)
    (prResponse : Outcome (option PullRequestData)) (diffResult : DiffResult)
    (filesResult : option (list FileChange)) :
  exists resp log,
    run (analyzePr ollamaLLM req prResponse diffResult filesResult) w
    = (Returned resp, log)
    /\ In (http_status resp) [200; 400; 500; 503]%Z
    /\ (existsb isGeneration log = true ->
        http_status resp = 200%Z \/ http_status resp = 500%Z)
    /\ (http_status resp = 200%Z ->
        hd_error log = Some (AxiosGet (baseURL ollamaLLM ++ js "/api/tags"))
        /\ existsb isGeneration log = true
        /\ exists t a u n rv me,
             http_body resp
             = AnalysisBody t a u n (Some rv) (Some (model ollamaLLM)) me
             /\ (me = js "API" \/ me = js "CLI")).
Proof.
  destruct (falsyString (body_owner req) || falsyString (body_repo req)
            || falsyNumber (body_prNumber req)) eqn:Hreq.
  { rewrite (analyzePr_incomplete ollamaLLM w req prResponse diffResult filesResult Hreq).
    route_leaf. }
  destruct prResponse as [prData|e].
  2:{ unfold run, analyzePr, tryCatch, bind, await. rewrite Hreq. route_leaf. }
  destruct diffResult as [diff|err].
  2:{ unfold run, analyzePr, tryCatch, bind, await. rewrite Hreq. route_leaf. }
  rewrite (analyzePr_probed _ _ _ _ _ _ Hreq).
  rewrite checkOllamaStatus_run. cbv zeta.
  destruct (world_get w _) as [[d|]|e]; cbn [fst running modelAvailable negb];
    [| route_leaf | route_leaf].
  destruct (existsb _ _); cbn [negb]; [|route_leaf].
  destruct prData as [pr|]; [|route_leaf].
  destruct (pr_user pr) as [user|]; [|route_leaf].
  rewrite generateReview_run.
  destruct (structuredOutcome ollamaLLM diff _ w) as [r|e] eqn:Ho; cbn [fst snd].
  - destruct (structuredOutcome_returned _ _ _ _ Ho)
      as [(rd & text & _ & _ & ->) | (rd & _ & _ & ->)]; cbn [success negb failure].
    + route_leaf. repeat split. repeat eexists. now left.
    + route_leaf.
  - unfold cliResult. destruct (world_exec w _ _) as [out|e'];
      cbn [success negb failure]; [|route_leaf].
    destruct (truthy (stderr out) && negb (truthy (stdout out)));
      cbn [success negb failure]; [route_leaf|].
    route_leaf. repeat split. repeat eexists. now right.
Qed.

Lemma analyzePr_responds_witness :
  exists resp log,
    run (analyzePr localOllama sampleRequest (Returned (Some samplePullRequest))
           (DiffOk (js "+x")) None) healthy
    = (Returned resp, log)
    /\ http_status resp = 200%Z
    /\ existsb isGeneration log = true.
Proof.
  destruct (analyzePr_responds localOllama healthy sampleRequest
              (Returned (Some samplePullRequest)) (DiffOk (js "+x")) None)
    as (resp & log & Hrun & _ & _ & H200).
  exists resp, log. split; [exact Hrun|].
  assert (Hs : http_status resp = 200%Z).
  { vm_compute in Hrun. injection Hrun as <- _. reflexivity. }
  split; [exact Hs|]. apply (H200 Hs).
Defined.

Lemma includes_unit (s : jsstring) (c : N) :
  includes s [c] = true <-> In c s.
Proof.
  rewrite includes_occurs. split.
  - intros (pre & post & ->). apply in_or_app. right. now left.
  - intros Hin. apply in_split in Hin as (pre & post & ->). now exists pre, post.
Qed.

(** X21: the repository prompt of the CLI.  An input is accepted exactly
    when it contains a slash; for an accepted input the owner is the text
    before the first slash and the repository the text between the first
    and the second slash (or the end), neither containing a slash, and
    whatever follows a second slash is dropped.  An input without a slash
    would give the whole input as owner and no repository. *)
Theorem repoInput_parsed (input : jsstring) :
  (validateRepoInput input = None <-> In slash input)
  /\ (In slash input ->
      exists owner repo,
        splitRepoInput input = (Some owner, Some repo)
        /\ ~ In slash owner /\ ~ In slash repo
        /\ (input = owner ++ slash :: repo
            \/ exists extra, input = owner ++ slash :: repo ++ slash :: extra))
  /\ (~ In slash input -> splitRepoInput input = (Some input, None)).
Proof.
  split; [|split].
  - unfold validateRepoInput. rewrite <- includes_unit.
    destruct (includes input [slash]); cbn [negb]; split; trivial; discriminate.
  - intros Hin. unfold splitRepoInput.
    destruct (split_join slash input) as [Hj Hf].
    pose proof (split_nonempty slash input) as Hn.
    destruct (split slash input) as [|owner [|repo rest]]; [congruence| |].
    + exfalso. cbn [join] in Hj. subst owner. exact (Forall_inv Hf Hin).
    + exists owner, repo. split; [reflexivity|].
      split; [exact (Forall_inv Hf)|].
      split; [exact (Forall_inv (Forall_inv_tail Hf))|].
      change (join [slash] (owner :: repo :: rest))
        with (owner ++ slash :: join [slash] (repo :: rest)) in Hj.
      destruct rest as [|q qs].
      * left. now rewrite <- Hj.
      * right. exists (join [slash] (q :: qs)). now rewrite <- Hj.
  - intros Hno. unfold splitRepoInput. now rewrite split_no_sep.
Qed.

Lemma repoInput_parsed_witness :
  exists owner repo,
    splitRepoInput (js "octo/cat/extra") = (Some owner, Some repo)
    /\ ~ In slash owner /\ ~ In slash repo.
Proof.
  destruct (proj1 (proj2 (repoInput_parsed (js "octo/cat/extra"))))
    as (owner & repo & Hs & Ho & Hr & _).
  - vm_compute. tauto.
  - exists owner, repo. auto.
Defined.
